(** * hackerschoolbot: the course-watch pipeline of [main.py]

    A shallow embedding of [main.py] (fetch, parse, diff, notify, persist)
    and the properties of its specification that were checked against it.

    Conventions of the embedding.
    - A Python [str] is a [string]; a character stands for the code point
      of the same number (U+0000 to U+00FF).  [str.encode()] is UTF-8.
    - Python exceptions are values of [exn]; a statement either returns or
      raises, and in both cases the effects it had so far stay in the world
      (log lines written, messages delivered, requests made).
    - What lives outside the process is an [Env]: the web site answering
      GET requests and the Telegram API accepting or refusing a message.
    - The libraries are embedded by what the program observes of them:
      [hashlib.md5] is the MD5 function itself, BeautifulSoup is the result
      of the look-ups the program performs on a page, PyYAML is the document
      held by the snapshot file, asyncio is the set of methods an event
      loop has.
    - The module is taken as loaded: the two settings of the environment
      are present and [Bot(token=...)] succeeded; [asyncio.get_event_loop()]
      hands back the loop of the main thread, as it does up to Python 3.13;
      [courses.yml], when it exists, can be opened.
    - The serialisation of YAML is not modelled: [courses.yml] is the
      document PyYAML reads from it, and what [yaml.dump] writes is taken
      to be read back by [yaml.safe_load] as the value written.  Facts
      that rest on this are facts of the model, not of PyYAML.
    - [logging.basicConfig] sends every record from level INFO on to
      [app.log], those of the libraries too: the lines a library writes
      during a call come from the [Env]. *)

From Stdlib Require Import ZArith List String Ascii Bool Lia DecimalString.
Import ListNotations.

Local Open Scope string_scope.
Local Open Scope Z_scope.

#[local] Set Warnings "-register-all".

(* ------------------------------------------------------------------ *)
(** * Python strings *)

Module PyStr.

(** Code point of a character. *)
Definition ord (c : ascii) : Z := Z.of_N (N_of_ascii c).

(** [str.isspace] on one character, for code points below 256: the
    characters [str.strip()] removes when called without argument. *)
Definition isspace (c : ascii) : bool :=
  let n := ord c in
  ((9 <=? n) && (n <=? 13)) || ((28 <=? n) && (n <=? 32))
  || (n =? 133) || (n =? 160).

Fixpoint lstrip (s : string) : string :=
  match s with
  | EmptyString => EmptyString
  | String c rest => if isspace c then lstrip rest else s
  end.

(** Reverse of a string, most recent character first in [acc]. *)
Fixpoint rev_onto (s acc : string) : string :=
  match s with
  | EmptyString => acc
  | String c rest => rev_onto rest (String c acc)
  end.

Definition rev (s : string) : string := rev_onto s EmptyString.

Definition rstrip (s : string) : string := rev (lstrip (rev s)).

(** [s.strip()] *)
Definition strip (s : string) : string := rstrip (lstrip s).

(** [s.encode()]: UTF-8.  Code points below 128 are one byte, the others
    (below 256 here) two bytes [110000xx 10xxxxxx]. *)
Definition encode_char (c : ascii) : list Z :=
  let n := ord c in
  if n <? 128 then [n]
  else [Z.lor 192 (Z.shiftr n 6); Z.lor 128 (Z.land n 63)].

Fixpoint encode (s : string) : list Z :=
  match s with
  | EmptyString => []
  | String c rest => (encode_char c ++ encode rest)%list
  end.

(** [s.replace("\n", "\\n")]: every line feed becomes a backslash and
    the letter n. *)
Fixpoint escape_newlines (s : string) : string :=
  match s with
  | EmptyString => EmptyString
  | String c rest =>
      if (ord c =? 10) then String "\" (String "n" (escape_newlines rest))
      else String c (escape_newlines rest)
  end.

(** [str(n)] for an integer. *)
Definition of_int (n : Z) : string := NilZero.string_of_int (Z.to_int n).

(** The line feed character and string. *)
Definition LF : string := String (ascii_of_nat 10) EmptyString.

End PyStr.

(* ------------------------------------------------------------------ *)
(** * hashlib.md5 *)

Module MD5.

Definition add32 (a b : Z) : Z := (a + b) mod 2 ^ 32.

Definition not32 (a : Z) : Z := Z.lxor a 0xffffffff.

Definition rotl32 (x c : Z) : Z :=
  Z.lor (Z.shiftl x c mod 2 ^ 32) (Z.shiftr x (32 - c)).

Definition shifts : list Z :=
  [7; 12; 17; 22; 7; 12; 17; 22; 7; 12; 17; 22; 7; 12; 17; 22;
   5; 9; 14; 20; 5; 9; 14; 20; 5; 9; 14; 20; 5; 9; 14; 20;
   4; 11; 16; 23; 4; 11; 16; 23; 4; 11; 16; 23; 4; 11; 16; 23;
   6; 10; 15; 21; 6; 10; 15; 21; 6; 10; 15; 21; 6; 10; 15; 21].

Definition K : list Z :=
  [0xd76aa478; 0xe8c7b756; 0x242070db; 0xc1bdceee;
   0xf57c0faf; 0x4787c62a; 0xa8304613; 0xfd469501;
   0x698098d8; 0x8b44f7af; 0xffff5bb1; 0x895cd7be;
   0x6b901122; 0xfd987193; 0xa679438e; 0x49b40821;
   0xf61e2562; 0xc040b340; 0x265e5a51; 0xe9b6c7aa;
   0xd62f105d; 0x02441453; 0xd8a1e681; 0xe7d3fbc8;
   0x21e1cde6; 0xc33707d6; 0xf4d50d87; 0x455a14ed;
   0xa9e3e905; 0xfcefa3f8; 0x676f02d9; 0x8d2a4c8a;
   0xfffa3942; 0x8771f681; 0x6d9d6122; 0xfde5380c;
   0xa4beea44; 0x4bdecfa9; 0xf6bb4b60; 0xbebfbc70;
   0x289b7ec6; 0xeaa127fa; 0xd4ef3085; 0x04881d05;
   0xd9d4d039; 0xe6db99e5; 0x1fa27cf8; 0xc4ac5665;
   0xf4292244; 0x432aff97; 0xab9423a7; 0xfc93a039;
   0x655b59c3; 0x8f0ccc92; 0xffeff47d; 0x85845dd1;
   0x6fa87e4f; 0xfe2ce6e0; 0xa3014314; 0x4e0811a1;
   0xf7537e82; 0xbd3af235; 0x2ad7d2bb; 0xeb86d391].

(** Message padding: a one bit, zeros up to 56 modulo 64, then the bit
    length on eight bytes, least significant first. *)
Definition le_bytes (count : nat) (x : Z) : list Z :=
  map (fun i => Z.land (Z.shiftr x (8 * Z.of_nat i)) 255) (seq 0 count).

Definition pad (msg : list Z) : list Z :=
  let len := Z.of_nat (List.length msg) in
  let zeros := Z.to_nat ((55 - len) mod 64) in
  (msg ++ [128] ++ repeat 0 zeros ++ le_bytes 8 ((8 * len) mod 2 ^ 64))%list.

Fixpoint le_word (bytes : list Z) : Z :=
  match bytes with
  | [] => 0
  | b :: rest => Z.lor b (Z.shiftl (le_word rest) 8)
  end.

(** The sixteen little-endian words of a 64-byte block. *)
Definition words (block : list Z) : list Z :=
  map (fun i => le_word (firstn 4 (skipn (4 * i) block))) (seq 0 16).

Definition state : Type := Z * Z * Z * Z.

Definition round (M : list Z) (st : state) (i : nat) : state :=
  let '(a, b, c, d) := st in
  let iz := Z.of_nat i in
  let '(f, g) :=
    if iz <? 16 then (Z.lor (Z.land b c) (Z.land (not32 b) d), iz)
    else if iz <? 32 then
      (Z.lor (Z.land d b) (Z.land (not32 d) c), (5 * iz + 1) mod 16)
    else if iz <? 48 then (Z.lxor (Z.lxor b c) d, (3 * iz + 5) mod 16)
    else (Z.lxor c (Z.lor b (not32 d)), (7 * iz) mod 16) in
  let f' := add32 (add32 (add32 f a) (nth i K 0)) (nth (Z.to_nat g) M 0) in
  (d, add32 b (rotl32 f' (nth i shifts 0)), b, c).

Definition compress (st : state) (block : list Z) : state :=
  let '(a0, b0, c0, d0) := st in
  let '(a, b, c, d) := fold_left (round (words block)) (seq 0 64) st in
  (add32 a0 a, add32 b0 b, add32 c0 c, add32 d0 d).

(** The blocks of a padded message; [n] is the number of blocks. *)
Fixpoint blocks (n : nat) (bytes : list Z) : list (list Z) :=
  match n with
  | O => []
  | S n' => firstn 64 bytes :: blocks n' (skipn 64 bytes)
  end.

Definition init : state := (0x67452301, 0xefcdab89, 0x98badcfe, 0x10325476).

Definition digest (msg : list Z) : list Z :=
  let padded := pad msg in
  let '(a, b, c, d) :=
    fold_left compress (blocks (List.length padded / 64) padded) init in
  (le_bytes 4 a ++ le_bytes 4 b ++ le_bytes 4 c ++ le_bytes 4 d)%list.

Definition hex_digit (n : Z) : ascii :=
  if n <? 10 then ascii_of_N (Z.to_N (48 + n))
  else ascii_of_N (Z.to_N (87 + n)).

Fixpoint hex (bytes : list Z) : string :=
  match bytes with
  | [] => EmptyString
  | b :: rest =>
      String (hex_digit (Z.shiftr b 4)) (String (hex_digit (Z.land b 15)) (hex rest))
  end.

(** [hashlib.md5(data).hexdigest()] *)
Definition hexdigest (msg : list Z) : string := hex (digest msg).

End MD5.

(* ------------------------------------------------------------------ *)
(** * Values, exceptions, the world *)

(** Values [yaml.safe_load] can hand back (floats and dates left out). *)
Inductive pyval : Type :=
| PNone
| PBool (b : bool)
| PInt (n : Z)
| PStr (s : string)
| PList (items : list pyval)
| PDict (entries : list (string * pyval)).

(** The exceptions the program can meet.  [SystemExit] is not an
    [Exception]; all the others are. *)
Inductive exn : Type :=
| SystemExit (code : Z)
| AttributeError
| TypeError
| KeyError
| YAMLError
| UnicodeDecodeError
| RequestException (msg : string)
| TelegramError (msg : string).

Definition is_Exception (e : exn) : bool :=
  match e with
  | SystemExit _ => false
  | _ => true
  end.

(** [str(e)].  Only the failures of the network and of the Telegram API
    carry a text: the handlers of the program guard nothing but a call to
    [requests.get] or to [bot.send_message]. *)
Definition exn_str (e : exn) : string :=
  match e with
  | RequestException msg | TelegramError msg => msg
  | _ => ""
  end.

Inductive outcome (A : Type) : Type :=
| Return (a : A)
| Raise (e : exn).
Arguments Return {A} a.
Arguments Raise {A} e.

Definition obind {A B : Type} (c : outcome A) (k : A -> outcome B) : outcome B :=
  match c with
  | Return a => k a
  | Raise e => Raise e
  end.

(** The dict built by [parse_course]. *)
Record Course : Type := {
  id : string;
  title : string;
  date : string;
  description : string
}.

Definition course_dict (c : Course) : pyval :=
  PDict [("id", PStr (id c)); ("title", PStr (title c));
         ("date", PStr (date c)); ("description", PStr (description c))].

(** One [<div class="hs-event">] as [parse_course] sees it.  [None] is
    BeautifulSoup finding nothing.
    - [h3_hs_event_titel]: text of [find('h3', class_='hs-event-titel')];
    - [div_hs_dates]: [find('div', class_='hs-dates')], inside it [.span],
      after it [.find_next_sibling()] and the text of that sibling;
    - [span_hs_curse_discription]: text of
      [find('span', class_='hs-curse-discription')]. *)
Record CourseElement : Type := {
  h3_hs_event_titel : option string;
  div_hs_dates : option (option (option string));
  span_hs_curse_discription : option string
}.

(** A fetched page as the program sees it through BeautifulSoup:
    [ul_pagination] is [None] when [find('ul', class_='pagination')] finds
    nothing, and otherwise the length of its [find_all('li')];
    [div_hs_event] is [find_all('div', class_='hs-event')] in document
    order. *)
Record Page : Type := {
  ul_pagination : option nat;
  div_hs_event : list CourseElement
}.

Inductive response : Type :=
| Response (page : Page)
| RequestFailed (msg : string).

Inductive level : Type := INFO | ERROR.

(** What answers from outside: the site, by URL, and the Telegram API, by
    the number of messages already on the channel and the text offered
    ([None]: delivered, [Some msg]: refused with that error).
    [client_log], with the same arguments, gives the lines the libraries
    under [bot.send_message] write to the root logger during that call:
    with httpx 0.24 or later an INFO line "HTTP Request: POST ..." for
    each request that got a response. *)
Record Env : Type := {
  http_get : string -> response;
  send_message : nat -> string -> option string;
  client_log : nat -> string -> list (level * string)
}.

(** Content of [courses.yml]: no document at all (an empty file), a
    document, UTF-8 text that is not YAML, or bytes that are not UTF-8. *)
Inductive yaml_file : Type :=
| EmptyStream
| Document (v : pyval)
| NotYaml
| NotUtf8.

Record World : Type := {
  courses_yml : option yaml_file;      (* [None]: the file does not exist *)
  app_log : list (level * string);     (* [app.log], oldest line first *)
  requests : list string;              (* URLs requested, oldest first *)
  channel : list string                (* messages delivered, oldest first *)
}.

Definition M (A : Type) : Type := Env -> World -> outcome A * World.

Definition ret {A : Type} (a : A) : M A := fun _ w => (Return a, w).

Definition raise {A : Type} (e : exn) : M A := fun _ w => (Raise e, w).

Definition bind {A B : Type} (c : M A) (k : A -> M B) : M B :=
  fun env w =>
    match c env w with
    | (Return a, w') => k a env w'
    | (Raise e, w') => (Raise e, w')
    end.

Definition lift {A : Type} (o : outcome A) : M A := fun _ w => (o, w).

(** [try: body  except Exception as e: handler e] *)
Definition try_except {A : Type} (body : M A) (handler : exn -> M A) : M A :=
  fun env w =>
    match body env w with
    | (Return a, w') => (Return a, w')
    | (Raise e, w') =>
        if is_Exception e then handler e env w' else (Raise e, w')
    end.

Declare Scope py_scope.
Delimit Scope py_scope with py.
Notation "x <- c ;; k" := (bind c (fun x => k))
  (at level 100, c at next level, right associativity) : py_scope.
Notation "c ;; k" := (bind c (fun _ => k))
  (at level 100, right associativity) : py_scope.
Notation "x <~ c ;; k" := (obind c (fun x => k))
  (at level 100, c at next level, right associativity) : py_scope.
Local Open Scope py_scope.

(** [for x in xs: acc = body acc x], stopping at the first exception. *)
Fixpoint for_each {A B : Type} (xs : list A) (acc : B) (body : B -> A -> M B)
  : M B :=
  match xs with
  | [] => ret acc
  | x :: rest => acc' <- body acc x ;; for_each rest acc' body
  end.

(** [range(lo, hi)] *)
Definition range (lo hi : Z) : list Z :=
  map (fun i => lo + Z.of_nat i) (seq 0 (Z.to_nat (hi - lo))).

(* ------------------------------------------------------------------ *)
(** * Library calls *)

Definition log_line (l : level) (msg : string) (w : World) : World :=
  {| courses_yml := courses_yml w;
     app_log := (app_log w ++ [(l, msg)])%list;
     requests := requests w;
     channel := channel w |}.

Definition logging_info (msg : string) : M unit :=
  fun _ w => (Return tt, log_line INFO msg w).

Definition logging_error (msg : string) : M unit :=
  fun _ w => (Return tt, log_line ERROR msg w).

(** [sys.exit(code)] *)
Definition sys_exit {A : Type} (code : Z) : M A := raise (SystemExit code).

(** [requests.get(url, timeout=10)] *)
Definition requests_get (url : string) : M Page :=
  fun env w =>
    let w' := {| courses_yml := courses_yml w;
                 app_log := app_log w;
                 requests := (requests w ++ [url])%list;
                 channel := channel w |} in
    match http_get env url with
    | Response page => (Return page, w')
    | RequestFailed msg => (Raise (RequestException msg), w')
    end.

(** [await bot.send_message(chat_id=TELEGRAM_CHANNEL, text=text)] *)
Definition bot_send_message (text : string) : M unit :=
  fun env w =>
    let n := List.length (channel w) in
    let log := (app_log w ++ client_log env n text)%list in
    match send_message env n text with
    | None =>
        (Return tt,
         {| courses_yml := courses_yml w;
            app_log := log;
            requests := requests w;
            channel := (channel w ++ [text])%list |})
    | Some msg =>
        (Raise (TelegramError msg),
         {| courses_yml := courses_yml w;
            app_log := log;
            requests := requests w;
            channel := channel w |})
    end.

(** [yaml.safe_load(file)] on the file opened with [encoding='utf-8'] *)
Definition yaml_safe_load (f : yaml_file) : outcome pyval :=
  match f with
  | EmptyStream => Return PNone
  | Document v => Return v
  | NotYaml => Raise YAMLError
  | NotUtf8 => Raise UnicodeDecodeError
  end.

(** [open('courses.yml', 'w')] then [yaml.dump(v, file)].  Modelled, not
    derived: the text PyYAML writes is not built; the file becomes the
    document that holds [v], that is, [yaml.safe_load] is taken to read
    back what [yaml.dump] wrote. *)
Definition yaml_dump (v : pyval) : M unit :=
  fun _ w =>
    (Return tt,
     {| courses_yml := Some (Document v);
        app_log := app_log w;
        requests := requests w;
        channel := channel w |}).

(** [iter(v)]: the items a [for] sees. *)
Definition py_iter (v : pyval) : outcome (list pyval) :=
  match v with
  | PList items => Return items
  | PDict entries => Return (map (fun kv => PStr (fst kv)) entries)
  | PStr s => Return (map (fun c => PStr (String c EmptyString)) (list_ascii_of_string s))
  | PNone | PBool _ | PInt _ => Raise TypeError
  end.

(** [v[key]] for a string key. *)
Definition py_getitem (v : pyval) (key : string) : outcome pyval :=
  match v with
  | PDict entries =>
      match find (fun kv => String.eqb (fst kv) key) entries with
      | Some kv => Return (snd kv)
      | None => Raise KeyError
      end
  | _ => Raise TypeError
  end.

(** [s == v] for a string [s]. *)
Definition str_eq (s : string) (v : pyval) : bool :=
  match v with
  | PStr s' => String.eqb s s'
  | _ => false
  end.

(** The method of an asyncio event loop named [name] that takes a
    coroutine and runs it to its end.  The loops of asyncio have
    [run_until_complete] (next to [run_forever] and [run_in_executor]);
    [run] is a function of the module ([asyncio.run]), no loop has an
    attribute of that name, and looking one up raises AttributeError.
    In [loop.run(post_new_courses(new_courses))] the look-up comes first:
    the call that would make the coroutine is not reached. *)
Definition event_loop_method (name : string) : M (M unit -> M unit) :=
  if String.eqb name "run_until_complete" then ret (fun coroutine => coroutine)
  else raise AttributeError.

(* ------------------------------------------------------------------ *)
(** * main.py *)

Definition COURSE_URL : string :=
  "https://hacker-school.de/unterstuetzen/inspirer/checkin-inspirer-yourschool/?formats%5B%5D=ys".

(** The text of one announcement (line 32). *)
Definition message_of (course : Course) : string :=
  "New course available:" ++ PyStr.LF ++ PyStr.LF
  ++ title course ++ PyStr.LF ++ date course ++ PyStr.LF ++ PyStr.LF
  ++ "Check it out at " ++ COURSE_URL.

(** Body of the coroutine [post_new_courses], as an event loop runs it. *)
Definition post_new_courses (new_courses : list Course) : M unit :=
  for_each new_courses tt (fun _ course =>
    let message := message_of course in
    try_except
      (bot_send_message message ;;
       let escaped_message := PyStr.escape_newlines message in
       logging_info ("Message sent: " ++ escaped_message))
      (fun e =>
         logging_error ("Error: " ++ exn_str e) ;;
         sys_exit 1)).

Definition load_existing_courses : M pyval :=
  fun env w =>
    match courses_yml w with
    | Some file => (yaml_safe_load file, w)
    | None => (Return (PList []), w)
    end.

Definition save_courses (courses : list Course) : M unit :=
  yaml_dump (PList (map course_dict courses)).

(** [x.text.strip()] where [x] may be [None]. *)
Definition text_strip (x : option string) : outcome string :=
  match x with
  | Some text => Return (PyStr.strip text)
  | None => Raise AttributeError
  end.

Definition unique_string (title date description : string) : string :=
  title ++ date ++ description.

Definition parse_course (course : CourseElement) : outcome Course :=
  title <~ text_strip (h3_hs_event_titel course) ;;
  date <~ match div_hs_dates course with
          | Some (Some sibling) => text_strip sibling
          | Some None | None => Raise AttributeError
          end ;;
  description <~ text_strip (span_hs_curse_discription course) ;;
  let course_id := MD5.hexdigest (PyStr.encode (unique_string title date description)) in
  Return {| id := course_id; title := title; date := date;
            description := description |}.

Definition page_url (page_number : Z) : string :=
  COURSE_URL ++ "&event_page=" ++ PyStr.of_int page_number.

Definition get_course_page (page_number : Z) (page : option Page)
  : M (list Course) :=
  page <- match page with
          | None =>
              try_except (requests_get (page_url page_number))
                (fun e =>
                   logging_error ("Error fetching courses: " ++ exn_str e) ;;
                   sys_exit 1)
          | Some p => ret p
          end ;;
  let course_elements := div_hs_event page in
  for_each course_elements [] (fun courses course =>
    c <- lift (parse_course course) ;;
    ret (courses ++ [c])%list).

Definition get_courses : M (list Course) :=
  response <- try_except (requests_get COURSE_URL)
                (fun e =>
                   logging_error ("Error fetching courses: " ++ exn_str e) ;;
                   sys_exit 1) ;;
  match ul_pagination response with
  | None =>
      logging_error "Pagination container not found" ;;
      ret []
  | Some pagination_items =>
      courses <- get_course_page 1 (Some response) ;;
      let last_page := Z.of_nat pagination_items - 2 in
      if last_page <? 2 then ret courses
      else
        for_each (range 2 (last_page + 1)) courses (fun courses page =>
          more <- get_course_page page None ;;
          ret (courses ++ more)%list)
  end.

(** [any(e_id == f["id"] for f in items)] once the generator has its
    iterator. *)
Fixpoint any_id_equal (e_id : string) (items : list pyval) : outcome bool :=
  match items with
  | [] => Return false
  | f :: rest =>
      f_id <~ py_getitem f "id" ;;
      if str_eq e_id f_id then Return true else any_id_equal e_id rest
  end.

(** Lines 131 to 135 of [main]: the loop that fills [new_courses]. *)
Fixpoint new_courses_loop (current_courses : list Course) (existing_courses : pyval)
  (new_courses : list Course) : outcome (list Course) :=
  match current_courses with
  | [] => Return new_courses
  | e :: rest =>
      items <~ py_iter existing_courses ;;
      known <~ any_id_equal (id e) items ;;
      if negb known
      then new_courses_loop rest existing_courses (new_courses ++ [e])%list
      else new_courses_loop rest existing_courses new_courses
  end.

Definition new_courses (current_courses : list Course) (existing_courses : pyval)
  : outcome (list Course) :=
  new_courses_loop current_courses existing_courses [].

Definition main : M unit :=
  logging_info "Running!" ;;
  existing_courses <- load_existing_courses ;;
  current_courses <- get_courses ;;
  (* loop = asyncio.get_event_loop(): the loop object, no effect *)
  new_courses <- lift (new_courses current_courses existing_courses) ;;
  match new_courses with
  | _ :: _ =>
      run <- event_loop_method "run" ;;
      run (post_new_courses new_courses) ;;
      save_courses current_courses ;;
      logging_info "New courses found and posted."
  | [] => logging_info "No new courses found."
  end.

(** Exit status of the process for the way [main] ends. *)
Definition exit_status (o : outcome unit) : Z :=
  match o with
  | Return _ => 0
  | Raise (SystemExit code) => code
  | Raise _ => 1
  end.

(* ------------------------------------------------------------------ *)
(** * Notions used in the statements *)

(** The bytes [parse_course] hands to MD5 for a course. *)
Definition hash_input (c : Course) : list Z :=
  PyStr.encode (unique_string (title c) (date c) (description c)).

Definition triple (c : Course) : string * string * string :=
  (title c, date c, description c).

(** A course is new with respect to [existing] when no course there has
    an equal id. *)
Definition is_new (existing : list Course) (e : Course) : bool :=
  negb (existsb (fun f => String.eqb (id e) (id f)) existing).

(** The courses of the blocks of a page, in document order; the first
    block that cannot be parsed decides the exception. *)
Fixpoint parse_all (elements : list CourseElement) : outcome (list Course) :=
  match elements with
  | [] => Return []
  | e :: rest =>
      c <~ parse_course e ;;
      cs <~ parse_all rest ;;
      Return (c :: cs)
  end.

Definition courses_of_page (p : Page) : outcome (list Course) :=
  parse_all (div_hs_event p).

(** [w] with more lines in the log and more requests made. *)
Definition extend (w : World) (lines : list (level * string))
  (urls : list string) : World :=
  {| courses_yml := courses_yml w;
     app_log := (app_log w ++ lines)%list;
     requests := (requests w ++ urls)%list;
     channel := channel w |}.

(** [w] with more messages on the channel. *)
Definition deliver (w : World) (texts : list string) : World :=
  {| courses_yml := courses_yml w;
     app_log := app_log w;
     requests := requests w;
     channel := (channel w ++ texts)%list |}.

(** [w] with another content of [courses.yml]. *)
Definition with_file (f : option yaml_file) (w : World) : World :=
  {| courses_yml := f;
     app_log := app_log w;
     requests := requests w;
     channel := channel w |}.

(** A computation that reads nothing of the world it starts in and only
    adds log lines and requests to it. *)
Definition uniform {A : Type} (c : M A) (env : Env) : Prop :=
  exists o lines urls, forall w, c env w = (o, extend w lines urls).

(** The log line of a delivered announcement. *)
Definition sent_line (c : Course) : level * string :=
  (INFO, "Message sent: " ++ PyStr.escape_newlines (message_of c)).

(** What the log gets while [courses] are announced and all delivered,
    [n] messages being on the channel before: for each course the lines
    of the libraries under the send, then the line of the program. *)
Fixpoint announcement_log (env : Env) (n : nat) (courses : list Course)
  : list (level * string) :=
  match courses with
  | [] => []
  | c :: rest =>
      (client_log env n (message_of c)
       ++ sent_line c :: announcement_log env (S n) rest)%list
  end.

(** First character of a UTF-8 byte sequence, for code points below
    256, and the bytes after it. *)
Definition decode_head (bytes : list Z) : option (ascii * list Z) :=
  match bytes with
  | [] => None
  | b :: rest =>
      if b <? 128 then Some (ascii_of_N (Z.to_N b), rest)
      else
        match rest with
        | [] => None
        | b' :: rest' =>
            Some (ascii_of_N (Z.to_N ((b - 192) * 64 + (b' - 128))), rest')
        end
  end.

(** Sample data: a site of two pages and a site of one page. *)
Module Sample.

Definition element (t d x : string) : CourseElement :=
  {| h3_hs_event_titel := Some t;
     div_hs_dates := Some (Some (Some d));
     span_hs_curse_discription := Some x |}.

Definition world (f : option yaml_file) : World :=
  {| courses_yml := f; app_log := []; requests := []; channel := [] |}.

Definition course (t d x : string) : Course :=
  {| id := MD5.hexdigest (PyStr.encode (unique_string t d x));
     title := t; date := d; description := x |}.

Definition A : Course := course "Python" "01.02.2025" "Basics".
Definition B : Course := course "X" "Y" "Z".
Definition C : Course := course "Scratch" "03.04.2025" "Games".

(** One page listing [A] then [B]; the pagination has the two
    navigation items only. *)
Definition page_AB : Page :=
  {| ul_pagination := Some 2%nat;
     div_hs_event := [element " Python " "01.02.2025" "Basics";
                      element "X" "Y" "Z"] |}.

Definition page_C : Page :=
  {| ul_pagination := Some 4%nat;
     div_hs_event := [element "Scratch" "03.04.2025" "Games"] |}.

(** First page with pagination for two pages. *)
Definition page_AB_of_2 : Page :=
  {| ul_pagination := Some 4%nat; div_hs_event := div_hs_event page_AB |}.

Definition page_bare : Page :=
  {| ul_pagination := None;
     div_hs_event := [element "X" "Y" "Z";
                      {| h3_hs_event_titel := None; div_hs_dates := None;
                         span_hs_curse_discription := None |}] |}.

(** The line httpx writes for a request of the bot that was answered. *)
Definition httpx_line : level * string :=
  let quote := String (ascii_of_nat 34) EmptyString in
  (INFO,
   "HTTP Request: POST https://api.telegram.org/bot<token>/sendMessage "
   ++ quote ++ "HTTP/1.1 200 OK" ++ quote).

(** Telegram accepts everything. *)
Definition site_one_page : Env :=
  {| http_get := fun url =>
       if String.eqb url COURSE_URL then Response page_AB
       else RequestFailed "404";
     send_message := fun _ _ => None;
     client_log := fun _ _ => [httpx_line] |}.

Definition site_two_pages : Env :=
  {| http_get := fun url =>
       if String.eqb url COURSE_URL then Response page_AB_of_2
       else if String.eqb url (page_url 2) then Response page_C
       else RequestFailed "404";
     send_message := fun _ _ => None;
     client_log := fun _ _ => [httpx_line] |}.

Definition site_bare : Env :=
  {| http_get := fun url => Response page_bare;
     send_message := fun _ _ => None;
     client_log := fun _ _ => [httpx_line] |}.


End Sample.

(* ------------------------------------------------------------------ *)
(** * Notions used in the further properties *)

Fixpoint string_forallb (p : ascii -> bool) (s : string) : bool :=
  match s with
  | EmptyString => true
  | String c rest => p c && string_forallb p rest
  end.

(** No line feed in [s]. *)
Definition single_line (s : string) : bool :=
  string_forallb (fun c => negb (PyStr.ord c =? 10)) s.

Definition is_lower_hex (c : ascii) : bool :=
  existsb (Ascii.eqb c) (list_ascii_of_string "0123456789abcdef").

Definition starts_with_space (s : string) : bool :=
  match s with
  | EmptyString => false
  | String c _ => PyStr.isspace c
  end.

(** [s] is its own [strip()] and has no white space at either end. *)
Definition trimmed (s : string) : Prop :=
  PyStr.strip s = s
  /\ starts_with_space s = false
  /\ starts_with_space (PyStr.rev s) = false.

(** The three texts [parse_course] reads in a block, when all are there. *)
Definition texts (e : CourseElement) : option (string * string * string) :=
  match h3_hs_event_titel e, div_hs_dates e, span_hs_curse_discription e with
  | Some t, Some (Some (Some d)), Some x => Some (t, d, x)
  | _, _, _ => None
  end.

(** The course of three texts as read. *)
Definition course_of_texts (r : string * string * string) : Course :=
  let '(t, d, x) := r in
  let title := PyStr.strip t in
  let date := PyStr.strip d in
  let description := PyStr.strip x in
  {| id := MD5.hexdigest (PyStr.encode (unique_string title date description));
     title := title; date := date; description := description |}.

(** More sample data. *)
Module Cases.

Definition no_date : CourseElement :=
  {| h3_hs_event_titel := Some "Robots";
     div_hs_dates := Some (Some None);
     span_hs_curse_discription := Some "Build one" |}.

(** First of two pages; its second block has no date after the marker. *)
Definition page_broken : Page :=
  {| ul_pagination := Some 4%nat;
     div_hs_event := [Sample.element "X" "Y" "Z"; no_date] |}.

Definition site_broken : Env :=
  {| http_get := fun _ => Response page_broken;
     send_message := fun _ _ => None;
     client_log := fun _ _ => [] |}.

(** Nothing answers. *)
Definition site_down : Env :=
  {| http_get := fun _ => RequestFailed "Connection refused";
     send_message := fun _ _ => None;
     client_log := fun _ _ => [] |}.

(** Three pages announced; the second does not answer. *)
Definition page_of_3 : Page :=
  {| ul_pagination := Some 5%nat; div_hs_event := div_hs_event Sample.page_AB |}.

Definition site_page_2_down : Env :=
  {| http_get := fun url =>
       if String.eqb url COURSE_URL then Response page_of_3
       else RequestFailed "Read timed out";
     send_message := fun _ _ => None;
     client_log := fun _ _ => [] |}.

(** A snapshot entry without the key [id]. *)
Definition entry_without_id : pyval :=
  PDict [("title", PStr "Python"); ("date", PStr "01.02.2025")].

End Cases.

(* ------------------------------------------------------------------ *)
(** * Checks of the library models *)

(** The function agrees with the reference digests of RFC 1321 and with
    digests of inputs around the padding boundaries. *)
Example md5_empty :
  MD5.hexdigest (PyStr.encode "") = "d41d8cd98f00b204e9800998ecf8427e".
Proof. vm_compute. reflexivity. Qed.

Example md5_abc :
  MD5.hexdigest (PyStr.encode "abc") = "900150983cd24fb0d6963f7d28e17f72".
Proof. vm_compute. reflexivity. Qed.

Example md5_message_digest :
  MD5.hexdigest (PyStr.encode "message digest")
  = "f96b697d7cb7938d525a2f31aaf161d0".
Proof. vm_compute. reflexivity. Qed.

Example md5_55 :
  MD5.hexdigest (repeat 97 55) = "ef1772b6dff9a122358552954ad0df65".
Proof. vm_compute. reflexivity. Qed.

Example md5_56 :
  MD5.hexdigest (repeat 97 56) = "3b0c8ac703f828b04c6c197006d17218".
Proof. vm_compute. reflexivity. Qed.

Example md5_64 :
  MD5.hexdigest (repeat 97 64) = "014842d480b571495a4a0363793f7367".
Proof. vm_compute. reflexivity. Qed.

Example md5_119 :
  MD5.hexdigest (repeat 97 119) = "8a7bd0732ed6a28ce75f6dabc90e1613".
Proof. vm_compute. reflexivity. Qed.

(** "été": two of the three characters take two bytes in UTF-8. *)
Example md5_latin1 :
  MD5.hexdigest
    (PyStr.encode (String (ascii_of_nat 233) (String "t" (String (ascii_of_nat 233) ""))))
  = "deaf6a1e9612a4d8c221e68ee23d58d2".
Proof. vm_compute. reflexivity. Qed.

Example strip_example :
  PyStr.strip (PyStr.LF ++ "  Python 101 " ++ PyStr.LF) = "Python 101".
Proof. vm_compute. reflexivity. Qed.

Example of_int_example : PyStr.of_int 12 = "12".
Proof. vm_compute. reflexivity. Qed.

Example parse_course_example :
  parse_course (Sample.element " Python " "01.02.2025" "Basics") = Return Sample.A.
Proof. vm_compute. reflexivity. Qed.

(* ------------------------------------------------------------------ *)
(** * Strings and bytes *)

Lemma decode_head_encode_char (c : ascii) (rest : list Z) :
  decode_head (PyStr.encode_char c ++ rest) = Some (c, rest).
Proof.
  destruct c as [[] [] [] [] [] [] [] []]; reflexivity.
Qed.

Lemma encode_injective (s1 s2 : string) :
  PyStr.encode s1 = PyStr.encode s2 -> s1 = s2.
Proof.
  revert s2.
  induction s1 as [|c1 r1 IH]; intros [|c2 r2] H; simpl in H.
  - reflexivity.
  - apply (f_equal decode_head) in H.
    rewrite decode_head_encode_char in H. discriminate.
  - apply (f_equal decode_head) in H.
    rewrite decode_head_encode_char in H. discriminate.
  - apply (f_equal decode_head) in H.
    rewrite !decode_head_encode_char in H.
    injection H as Hc Hr. subst c2. f_equal. now apply IH.
Qed.

(* ------------------------------------------------------------------ *)
(** * parse_course *)

Lemma parse_course_inv (e : CourseElement) (c : Course) :
  parse_course e = Return c ->
  id c = MD5.hexdigest (hash_input c).
Proof.
  unfold parse_course, hash_input, obind, text_strip.
  destruct (h3_hs_event_titel e); [|discriminate].
  destruct (div_hs_dates e) as [[[d|]|]|]; try discriminate.
  destruct (span_hs_curse_discription e); [|discriminate].
  intros H. injection H as <-. reflexivity.
Qed.

(** C4. The id [parse_course] gives a course is the MD5 digest of the
    UTF-8 bytes of title + date + description, so two parsed courses with
    the same title, date and description have the same id. *)
Theorem parse_course_id_deterministic (e1 e2 : CourseElement) (c1 c2 : Course) :
  parse_course e1 = Return c1 ->
  parse_course e2 = Return c2 ->
  triple c1 = triple c2 ->
  id c1 = MD5.hexdigest
            (PyStr.encode (unique_string (title c1) (date c1) (description c1)))
  /\ id c1 = id c2.
Proof.
  intros H1 H2 Ht.
  apply parse_course_inv in H1. apply parse_course_inv in H2.
  split; [exact H1|].
  rewrite H1, H2. unfold hash_input.
  unfold triple in Ht. injection Ht as -> -> ->. reflexivity.
Qed.

Lemma parse_course_id_deterministic_witness :
  id Sample.A = MD5.hexdigest
                  (PyStr.encode
                     (unique_string (title Sample.A) (date Sample.A)
                        (description Sample.A)))
  /\ id Sample.A = id Sample.A.
Proof.
  apply (parse_course_id_deterministic
           (Sample.element " Python " "01.02.2025" "Basics")
           (Sample.element "Python" (" 01.02.2025" ++ PyStr.LF) "Basics")).
  - vm_compute. reflexivity.
  - vm_compute. reflexivity.
  - reflexivity.
Defined.

(** C5, as stated, fails: the titles "ab" and "a" with the dates "c" and
    "bc" give two courses with distinct triples, the same bytes fed to
    MD5 and so the same id. *)
Lemma distinct_triples_same_hash_input :
  parse_course (Sample.element "ab" "c" "d")
  = Return (Sample.course "ab" "c" "d")
  /\ parse_course (Sample.element "a" "bc" "d")
     = Return (Sample.course "a" "bc" "d")
  /\ triple (Sample.course "ab" "c" "d") <> triple (Sample.course "a" "bc" "d")
  /\ hash_input (Sample.course "ab" "c" "d")
     = hash_input (Sample.course "a" "bc" "d")
  /\ id (Sample.course "ab" "c" "d") = id (Sample.course "a" "bc" "d").
Proof.
  split; [vm_compute; reflexivity|].
  split; [vm_compute; reflexivity|].
  split; [vm_compute; discriminate|].
  split; vm_compute; reflexivity.
Qed.

(** C5, amended.  For two parsed courses whose concatenations
    title + date + description differ, the bytes fed to MD5 differ, so
    their ids are equal only if MD5 collides on two distinct inputs; two
    courses with the same concatenation have the same id. *)
Theorem id_collision_only_by_concatenation_or_md5 (e1 e2 : CourseElement)
  (c1 c2 : Course) :
  parse_course e1 = Return c1 ->
  parse_course e2 = Return c2 ->
  id c1 = MD5.hexdigest (hash_input c1)
  /\ id c2 = MD5.hexdigest (hash_input c2)
  /\ (unique_string (title c1) (date c1) (description c1)
      <> unique_string (title c2) (date c2) (description c2) ->
      hash_input c1 <> hash_input c2)
  /\ (unique_string (title c1) (date c1) (description c1)
      = unique_string (title c2) (date c2) (description c2) ->
      id c1 = id c2).
Proof.
  intros H1 H2.
  apply parse_course_inv in H1. apply parse_course_inv in H2.
  split; [exact H1|]. split; [exact H2|]. split.
  - intros Hne Heq. apply Hne. now apply encode_injective.
  - intros Heq. rewrite H1, H2. unfold hash_input. now rewrite Heq.
Qed.

Lemma id_collision_only_by_concatenation_or_md5_witness :
  id Sample.A = MD5.hexdigest (hash_input Sample.A)
  /\ id Sample.B = MD5.hexdigest (hash_input Sample.B)
  /\ (unique_string (title Sample.A) (date Sample.A) (description Sample.A)
      <> unique_string (title Sample.B) (date Sample.B) (description Sample.B) ->
      hash_input Sample.A <> hash_input Sample.B)
  /\ (unique_string (title Sample.A) (date Sample.A) (description Sample.A)
      = unique_string (title Sample.B) (date Sample.B) (description Sample.B) ->
      id Sample.A = id Sample.B).
Proof.
  apply (id_collision_only_by_concatenation_or_md5
           (Sample.element " Python " "01.02.2025" "Basics")
           (Sample.element "X" "Y" "Z")).
  - vm_compute. reflexivity.
  - vm_compute. reflexivity.
Defined.

(* ------------------------------------------------------------------ *)
(** * The diff of [main] *)

Lemma any_id_equal_courses (e_id : string) (existing : list Course) :
  any_id_equal e_id (map course_dict existing)
  = Return (existsb (fun f => String.eqb e_id (id f)) existing).
Proof.
  induction existing as [|f rest IH]; simpl.
  - reflexivity.
  - destruct (String.eqb e_id (id f)); simpl; [reflexivity|exact IH].
Qed.

Lemma new_courses_loop_filter (current existing acc : list Course) :
  new_courses_loop current (PList (map course_dict existing)) acc
  = Return (acc ++ filter (is_new existing) current)%list.
Proof.
  revert acc.
  induction current as [|e rest IH]; intros acc; simpl.
  - now rewrite app_nil_r.
  - cbn [py_iter obind]. rewrite any_id_equal_courses. cbn [obind].
    fold (is_new existing e).
    destruct (is_new existing e); rewrite IH.
    + now rewrite <- app_assoc.
    + reflexivity.
Qed.

Lemma known_courses_are_not_new (existing some : list Course) :
  incl some existing -> filter (is_new existing) some = [].
Proof.
  induction some as [|e rest IH]; intros Hincl; simpl.
  - reflexivity.
  - assert (is_new existing e = false) as ->.
    { unfold is_new. apply negb_false_iff, existsb_exists.
      exists e. split; [apply Hincl; now left|apply String.eqb_refl]. }
    apply IH. intros f Hf. apply Hincl. now right.
Qed.

(** Against the snapshot [save_courses] writes for them, the courses of a
    scrape are all known (with the file as the model has it: the document
    written is the document read). *)
Lemma no_new_courses_after_snapshot (env : Env) (w : World)
  (current : list Course) :
  let w1 := snd (save_courses current env w) in
  load_existing_courses env w1 = (Return (PList (map course_dict current)), w1)
  /\ new_courses current (PList (map course_dict current)) = Return [].
Proof.
  split; [reflexivity|].
  unfold new_courses. rewrite new_courses_loop_filter.
  rewrite known_courses_are_not_new by apply incl_refl. reflexivity.
Qed.

(** C2. For all lists [current] and [existing] of courses, the loop of
    [main] computes the sublist of [current], in the order of [current],
    of the courses whose id is the id of no course of [existing]. *)
Theorem new_courses_is_filter (current existing : list Course) :
  exists l,
    new_courses current (PList (map course_dict existing)) = Return l
    /\ l = filter (is_new existing) current
    /\ forall e, In e l <->
                 In e current /\ forall f, In f existing -> id e <> id f.
Proof.
  exists (filter (is_new existing) current).
  split; [|split; [reflexivity|]].
  - unfold new_courses. now rewrite new_courses_loop_filter.
  - intros e. rewrite filter_In. unfold is_new.
    rewrite negb_true_iff.
    split; intros [Hin H]; split; try assumption.
    + intros f Hf Heq.
      assert (existsb (fun f0 => String.eqb (id e) (id f0)) existing = true) as Ht.
      { apply existsb_exists. exists f. split; [assumption|].
        now apply String.eqb_eq. }
      congruence.
    + destruct (existsb _ existing) eqn:Hex; [|reflexivity].
      apply existsb_exists in Hex. destruct Hex as [f [Hf Heq]].
      apply String.eqb_eq in Heq. exfalso. now apply (H f).
Qed.

(* ------------------------------------------------------------------ *)
(** * Worlds *)

Lemma extend_nil (w : World) : extend w [] [] = w.
Proof. destruct w. unfold extend. simpl. now rewrite !app_nil_r. Qed.

Lemma extend_extend (w : World) l1 u1 l2 u2 :
  extend (extend w l1 u1) l2 u2 = extend w (l1 ++ l2) (u1 ++ u2).
Proof. unfold extend. simpl. now rewrite <- !app_assoc. Qed.

Lemma log_line_extend (l : level) (msg : string) (w : World) :
  log_line l msg w = extend w [(l, msg)] [].
Proof. unfold log_line, extend. now rewrite app_nil_r. Qed.

(* ------------------------------------------------------------------ *)
(** * get_course_page and get_courses *)

Lemma parse_loop (elements : list CourseElement) (acc : list Course)
  (env : Env) (w : World) :
  for_each elements acc
    (fun courses course =>
       c <- lift (parse_course course) ;; ret (courses ++ [c])%list) env w
  = (cs <~ parse_all elements ;; Return (acc ++ cs)%list, w).
Proof.
  revert acc.
  induction elements as [|e rest IH]; intros acc; simpl.
  - unfold ret. now rewrite app_nil_r.
  - unfold bind at 1. unfold bind at 1. unfold lift, ret.
    destruct (parse_course e) as [c|x]; simpl; [|reflexivity].
    rewrite IH.
    destruct (parse_all rest) as [cs|x]; simpl; [|reflexivity].
    now rewrite <- app_assoc.
Qed.

Lemma get_course_page_given (n : Z) (p : Page) (env : Env) (w : World) :
  get_course_page n (Some p) env w = (courses_of_page p, w).
Proof.
  unfold get_course_page, bind at 1, ret at 1.
  rewrite parse_loop. unfold courses_of_page.
  now destruct (parse_all (div_hs_event p)).
Qed.

Lemma get_course_page_fetch (n : Z) (env : Env) (w : World) :
  get_course_page n None env w
  = match http_get env (page_url n) with
    | Response p => (courses_of_page p, extend w [] [page_url n])
    | RequestFailed msg =>
        (Raise (SystemExit 1),
         extend w [(ERROR, "Error fetching courses: " ++ msg)] [page_url n])
    end.
Proof.
  unfold get_course_page, bind at 1, try_except, requests_get.
  destruct (http_get env (page_url n)) as [p|msg].
  - rewrite parse_loop. unfold courses_of_page, extend.
    rewrite app_nil_r.
    now destruct (parse_all (div_hs_event p)).
  - reflexivity.
Qed.

Lemma get_courses_unfold (env : Env) (w : World) :
  get_courses env w
  = match http_get env COURSE_URL with
    | RequestFailed msg =>
        (Raise (SystemExit 1),
         extend w [(ERROR, "Error fetching courses: " ++ msg)] [COURSE_URL])
    | Response p =>
        match ul_pagination p with
        | None =>
            (Return [],
             extend w [(ERROR, "Pagination container not found")] [COURSE_URL])
        | Some n =>
            match courses_of_page p with
            | Raise x => (Raise x, extend w [] [COURSE_URL])
            | Return courses =>
                if Z.of_nat n - 2 <? 2
                then (Return courses, extend w [] [COURSE_URL])
                else
                  for_each (range 2 (Z.of_nat n - 2 + 1)) courses
                    (fun courses page =>
                       more <- get_course_page page None ;;
                       ret (courses ++ more)%list)
                    env (extend w [] [COURSE_URL])
            end
        end
    end.
Proof.
  unfold get_courses, bind at 1, try_except, requests_get.
  destruct (http_get env COURSE_URL) as [p|msg]; [|reflexivity].
  simpl.
  destruct (ul_pagination p) as [n|].
  - unfold bind at 1. rewrite get_course_page_given.
    unfold extend. rewrite app_nil_r.
    destruct (courses_of_page p) as [courses|x]; [|reflexivity].
    destruct (Z.of_nat n - 2 <? 2); reflexivity.
  - reflexivity.
Qed.

(** A failed request for the first page is fatal. *)
Lemma get_courses_fetch_failure (env : Env) (w : World) (msg : string) :
  http_get env COURSE_URL = RequestFailed msg ->
  get_courses env w
  = (Raise (SystemExit 1),
     extend w [(ERROR, "Error fetching courses: " ++ msg)] [COURSE_URL]).
Proof. intros H. now rewrite get_courses_unfold, H. Qed.

Lemma pages_loop (env : Env) (pages : Z -> Page) (cs : Z -> list Course)
  (numbers : list Z) :
  (forall N, In N numbers ->
             http_get env (page_url N) = Response (pages N)
             /\ courses_of_page (pages N) = Return (cs N)) ->
  forall (acc : list Course) (w : World),
    for_each numbers acc
      (fun courses page =>
         more <- get_course_page page None ;; ret (courses ++ more)%list)
      env w
    = (Return (acc ++ List.concat (map cs numbers))%list,
       extend w [] (map page_url numbers)).
Proof.
  induction numbers as [|N rest IH]; intros H acc w; simpl.
  - unfold ret. now rewrite app_nil_r, extend_nil.
  - destruct (H N (or_introl eq_refl)) as [Hget Hparse].
    unfold bind at 1. unfold bind at 1.
    rewrite get_course_page_fetch, Hget, Hparse. unfold ret at 1.
    rewrite IH by (intros N' HN'; apply H; now right).
    rewrite extend_extend. simpl. now rewrite <- app_assoc.
Qed.

Lemma in_range (lo hi N : Z) : In N (range lo hi) <-> lo <= N < hi.
Proof.
  unfold range. rewrite in_map_iff. split.
  - intros [i [<- Hi]]. apply in_seq in Hi. lia.
  - intros H. exists (Z.to_nat (N - lo)). split; [lia|].
    apply in_seq. lia.
Qed.

(** C6. When the pagination of the first page has [n] list items and
    [n - 2] is below 2 (as for [n = 2], where it is 0), [get_courses]
    requests the first page only and returns the courses of that page. *)
Theorem short_pagination_first_page_only (env : Env) (w : World) (p : Page)
  (n : nat) :
  http_get env COURSE_URL = Response p ->
  ul_pagination p = Some n ->
  Z.of_nat n - 2 < 2 ->
  get_courses env w = (courses_of_page p, extend w [] [COURSE_URL])
  /\ (n = 2%nat -> Z.of_nat n - 2 = 0).
Proof.
  intros Hget Hpag Hlast. split; [|lia].
  rewrite get_courses_unfold, Hget, Hpag.
  destruct (courses_of_page p); [|reflexivity].
  apply Z.ltb_lt in Hlast. now rewrite Hlast.
Qed.

Lemma short_pagination_first_page_only_witness :
  get_courses Sample.site_one_page (Sample.world None)
  = (courses_of_page Sample.page_AB,
     extend (Sample.world None) [] [COURSE_URL])
  /\ (2%nat = 2%nat -> Z.of_nat 2 - 2 = 0).
Proof.
  apply (short_pagination_first_page_only Sample.site_one_page
           (Sample.world None) Sample.page_AB 2%nat).
  - vm_compute. reflexivity.
  - reflexivity.
  - lia.
Defined.

(** C7. When the first page has no pagination container, [get_courses]
    logs the error and returns the empty list, without raising and
    whatever course blocks the page has. *)
Theorem missing_pagination_returns_empty (env : Env) (w : World) (p : Page) :
  http_get env COURSE_URL = Response p ->
  ul_pagination p = None ->
  get_courses env w
  = (Return [],
     extend w [(ERROR, "Pagination container not found")] [COURSE_URL]).
Proof.
  intros Hget Hpag. now rewrite get_courses_unfold, Hget, Hpag.
Qed.

Lemma missing_pagination_returns_empty_witness :
  get_courses Sample.site_bare (Sample.world None)
  = (Return [],
     extend (Sample.world None)
       [(ERROR, "Pagination container not found")] [COURSE_URL]).
Proof.
  apply (missing_pagination_returns_empty Sample.site_bare
           (Sample.world None) Sample.page_bare).
  - reflexivity.
  - reflexivity.
Defined.

(** C9. When [n - 2] is at least 2 and every page answers and parses,
    [get_courses] returns the courses of page 1 followed by those of the
    pages 2 to [n - 2] in this order, nothing removed, and has requested
    the base URL and then base URL + "&event_page=" + N for each of
    these N, in this order. *)
Theorem all_pages_in_order (env : Env) (w : World) (p1 : Page) (n : nat)
  (pages : Z -> Page) (cs1 : list Course) (cs : Z -> list Course) :
  http_get env COURSE_URL = Response p1 ->
  ul_pagination p1 = Some n ->
  2 <= Z.of_nat n - 2 ->
  courses_of_page p1 = Return cs1 ->
  (forall N, 2 <= N <= Z.of_nat n - 2 ->
             http_get env (COURSE_URL ++ "&event_page=" ++ PyStr.of_int N)
             = Response (pages N)
             /\ courses_of_page (pages N) = Return (cs N)) ->
  let numbers := range 2 (Z.of_nat n - 2 + 1) in
  get_courses env w
  = (Return (cs1 ++ List.concat (map cs numbers))%list,
     extend w []
       (COURSE_URL
        :: map (fun N => COURSE_URL ++ "&event_page=" ++ PyStr.of_int N) numbers))
  /\ (forall N, In N numbers <-> 2 <= N <= Z.of_nat n - 2).
Proof.
  intros Hget Hpag Hlast Hp1 Hpages numbers. split.
  - rewrite get_courses_unfold, Hget, Hpag, Hp1.
    apply Z.ltb_ge in Hlast. rewrite Hlast.
    rewrite (pages_loop env pages cs).
    + now rewrite extend_extend.
    + intros N HN. apply in_range in HN. apply Hpages. lia.
  - intros N. unfold numbers. rewrite in_range. lia.
Qed.

Lemma all_pages_in_order_witness :
  let numbers := range 2 (Z.of_nat 4 - 2 + 1) in
  get_courses Sample.site_two_pages (Sample.world None)
  = (Return ([Sample.A; Sample.B]
             ++ List.concat (map (fun _ => [Sample.C]) numbers))%list,
     extend (Sample.world None) []
       (COURSE_URL
        :: map (fun N => COURSE_URL ++ "&event_page=" ++ PyStr.of_int N) numbers))
  /\ (forall N, In N numbers <-> 2 <= N <= Z.of_nat 4 - 2).
Proof.
  apply (all_pages_in_order Sample.site_two_pages (Sample.world None)
           Sample.page_AB_of_2 4%nat (fun _ => Sample.page_C)
           [Sample.A; Sample.B] (fun _ => [Sample.C])).
  - vm_compute. reflexivity.
  - reflexivity.
  - lia.
  - vm_compute. reflexivity.
  - intros N HN. assert (N = 2) as -> by lia.
    split; vm_compute; reflexivity.
Defined.

(* ------------------------------------------------------------------ *)
(** * The fetcher reads nothing of the world *)

Create HintDb uniform.

Section Uniform.

Variable env : Env.

Lemma uniform_ret {A : Type} (a : A) : uniform (ret a) env.
Proof.
  exists (Return a), [], []. intros w. unfold ret. now rewrite extend_nil.
Qed.

Lemma uniform_raise {A : Type} (x : exn) : uniform (@raise A x) env.
Proof.
  exists (Raise x), [], []. intros w. unfold raise. now rewrite extend_nil.
Qed.

Lemma uniform_lift {A : Type} (o : outcome A) : uniform (lift o) env.
Proof.
  exists o, [], []. intros w. unfold lift. now rewrite extend_nil.
Qed.

Lemma uniform_logging_info (msg : string) : uniform (logging_info msg) env.
Proof.
  exists (Return tt), [(INFO, msg)], []. intros w.
  unfold logging_info. now rewrite log_line_extend.
Qed.

Lemma uniform_logging_error (msg : string) : uniform (logging_error msg) env.
Proof.
  exists (Return tt), [(ERROR, msg)], []. intros w.
  unfold logging_error. now rewrite log_line_extend.
Qed.

Lemma uniform_requests_get (url : string) : uniform (requests_get url) env.
Proof.
  unfold uniform, requests_get.
  destruct (http_get env url) as [p|msg].
  - exists (Return p), [], [url]. intros w. unfold extend.
    now rewrite app_nil_r.
  - exists (Raise (RequestException msg)), [], [url]. intros w. unfold extend.
    now rewrite app_nil_r.
Qed.

Lemma uniform_bind {A B : Type} (c : M A) (k : A -> M B) :
  uniform c env -> (forall a, uniform (k a) env) -> uniform (bind c k) env.
Proof.
  intros [o [l [u H]]] Hk. destruct o as [a|x].
  - destruct (Hk a) as [o2 [l2 [u2 H2]]].
    exists o2, (l ++ l2)%list, (u ++ u2)%list. intros w.
    unfold bind. now rewrite H, H2, extend_extend.
  - exists (Raise x), l, u. intros w. unfold bind. now rewrite H.
Qed.

Lemma uniform_try_except {A : Type} (body : M A) (handler : exn -> M A) :
  uniform body env -> (forall x, uniform (handler x) env) ->
  uniform (try_except body handler) env.
Proof.
  intros [o [l [u H]]] Hh. destruct o as [a|x].
  - exists (Return a), l, u. intros w. unfold try_except. now rewrite H.
  - destruct (is_Exception x) eqn:Hx.
    + destruct (Hh x) as [o2 [l2 [u2 H2]]].
      exists o2, (l ++ l2)%list, (u ++ u2)%list. intros w.
      unfold try_except. now rewrite H, Hx, H2, extend_extend.
    + exists (Raise x), l, u. intros w. unfold try_except.
      now rewrite H, Hx.
Qed.

Lemma uniform_for_each {A B : Type} (body : B -> A -> M B) :
  (forall acc x, uniform (body acc x) env) ->
  forall xs acc, uniform (for_each xs acc body) env.
Proof.
  intros Hbody xs.
  induction xs as [|x rest IH]; intros acc; simpl.
  - apply uniform_ret.
  - apply uniform_bind; [apply Hbody|]. intros acc'. apply IH.
Qed.

#[local] Hint Resolve uniform_ret uniform_raise uniform_lift
  uniform_logging_info uniform_logging_error uniform_requests_get : uniform.

(** Goals [uniform c env] for a [c] built from the calls above. *)
Ltac uniform_steps :=
  repeat first
    [ apply uniform_bind; [|intros ?]
    | apply uniform_try_except; [|intros ?]
    | apply uniform_for_each; intros ? ?
    | solve [auto with uniform]
    | solve [unfold sys_exit; auto with uniform] ].

Lemma uniform_get_course_page (n : Z) (page : option Page) :
  uniform (get_course_page n page) env.
Proof.
  unfold get_course_page. destruct page; uniform_steps.
Qed.

Lemma uniform_get_courses : uniform get_courses env.
Proof.
  unfold get_courses.
  apply uniform_bind; [uniform_steps|]. intros p.
  destruct (ul_pagination p) as [n|]; [|uniform_steps].
  apply uniform_bind; [apply uniform_get_course_page|]. intros courses.
  destruct (Z.of_nat n - 2 <? 2); [uniform_steps|].
  apply uniform_for_each. intros acc N.
  apply uniform_bind; [apply uniform_get_course_page|]. intros more.
  uniform_steps.
Qed.

(** [get_courses] touches neither [courses.yml] nor the channel. *)
Lemma get_courses_frame (w : World) :
  courses_yml (snd (get_courses env w)) = courses_yml w
  /\ channel (snd (get_courses env w)) = channel w.
Proof.
  destruct uniform_get_courses as [o [l [u H]]].
  rewrite H. split; reflexivity.
Qed.

(** What [get_courses] returns depends on the site alone. *)
Lemma get_courses_result (w1 w2 : World) :
  fst (get_courses env w1) = fst (get_courses env w2).
Proof.
  destruct uniform_get_courses as [o [l [u H]]].
  now rewrite !H.
Qed.

End Uniform.

(* ------------------------------------------------------------------ *)
(** * load_existing_courses *)

Lemma load_existing_courses_unfold (env : Env) (w : World) :
  load_existing_courses env w
  = (match courses_yml w with
     | Some file => yaml_safe_load file
     | None => Return (PList [])
     end, w).
Proof. unfold load_existing_courses. now destruct (courses_yml w). Qed.

Lemma load_existing_courses_result (env : Env) (w1 w2 : World) :
  courses_yml w1 = courses_yml w2 ->
  fst (load_existing_courses env w1) = fst (load_existing_courses env w2).
Proof. intros H. rewrite !load_existing_courses_unfold. simpl. now rewrite H. Qed.

(* ------------------------------------------------------------------ *)
(** * main *)

Lemma main_unfold (env : Env) (w : World) :
  main env w
  = let w0 := log_line INFO "Running!" w in
    match fst (load_existing_courses env w0) with
    | Raise x => (Raise x, w0)
    | Return existing =>
        let w1 := snd (get_courses env w0) in
        match fst (get_courses env w0) with
        | Raise x => (Raise x, w1)
        | Return current =>
            match new_courses current existing with
            | Raise x => (Raise x, w1)
            | Return [] =>
                (Return tt, log_line INFO "No new courses found." w1)
            | Return (_ :: _) => (Raise AttributeError, w1)
            end
        end
    end.
Proof.
  unfold main. unfold bind at 1. unfold logging_info at 1.
  unfold bind at 1. rewrite load_existing_courses_unfold. cbn [fst snd].
  cbv zeta.
  destruct (match courses_yml (log_line INFO "Running!" w) with
            | Some file => yaml_safe_load file
            | None => Return (PList [])
            end) as [existing|x]; [|reflexivity].
  unfold bind at 1.
  destruct (get_courses env (log_line INFO "Running!" w)) as [[current|x] w1];
    [|reflexivity].
  cbn [fst snd]. unfold bind at 1, lift.
  destruct (new_courses current existing) as [[|c cs]|x]; reflexivity.
Qed.

(** [main] delivers no message and never writes [courses.yml]: with new
    courses it stops at the look-up of [loop.run]. *)
Lemma main_frame (env : Env) (w : World) :
  courses_yml (snd (main env w)) = courses_yml w
  /\ channel (snd (main env w)) = channel w.
Proof.
  rewrite main_unfold. cbv zeta.
  pose proof (get_courses_frame env (log_line INFO "Running!" w)) as [Hy Hc].
  destruct (fst (load_existing_courses env (log_line INFO "Running!" w)))
    as [existing|x]; [|split; reflexivity].
  destruct (fst (get_courses env (log_line INFO "Running!" w)))
    as [current|x]; [|split; assumption].
  destruct (new_courses current existing) as [[|c cs]|x];
    cbn [fst snd]; split; assumption.
Qed.

Lemma main_with_new_courses (env : Env) (w : World) (existing : pyval)
  (current : list Course) (c : Course) (cs : list Course) :
  fst (load_existing_courses env w) = Return existing ->
  fst (get_courses env w) = Return current ->
  new_courses current existing = Return (c :: cs) ->
  fst (main env w) = Raise AttributeError.
Proof.
  intros Hload Hget Hnew. rewrite main_unfold. cbv zeta.
  rewrite (load_existing_courses_result env _ w) by reflexivity.
  rewrite Hload, (get_courses_result env _ w), Hget, Hnew. reflexivity.
Qed.

Lemma main_returns_only_without_new_courses (env : Env) (w : World) :
  fst (main env w) = Return tt ->
  exists existing current,
    fst (load_existing_courses env w) = Return existing
    /\ fst (get_courses env w) = Return current
    /\ new_courses current existing = Return [].
Proof.
  rewrite main_unfold. cbv zeta.
  rewrite (load_existing_courses_result env _ w) by reflexivity.
  rewrite (get_courses_result env _ w).
  destruct (fst (load_existing_courses env w)) as [existing|x];
    [|discriminate].
  destruct (fst (get_courses env w)) as [current|x]; [|discriminate].
  destruct (new_courses current existing) as [[|c cs]|x] eqn:Hnew;
    try discriminate.
  intros _. now exists existing, current.
Qed.

Lemma main_without_new_courses (env : Env) (w : World) (existing : pyval)
  (current : list Course) :
  fst (load_existing_courses env w) = Return existing ->
  fst (get_courses env w) = Return current ->
  new_courses current existing = Return [] ->
  main env w
  = (Return tt,
     log_line INFO "No new courses found."
       (snd (get_courses env (log_line INFO "Running!" w)))).
Proof.
  intros Hload Hget Hnew. rewrite main_unfold. cbv zeta.
  rewrite (load_existing_courses_result env _ w) by reflexivity.
  rewrite Hload, (get_courses_result env _ w), Hget, Hnew. reflexivity.
Qed.

(** C8. In a run where no course is new, [main] returns normally (exit
    status 0) with "No new courses found." as last log line, delivers no
    message and leaves [courses.yml] as it was; a second run from the
    world so reached and with the same site loads the same snapshot,
    scrapes the same courses, so finds none new again, and leaves
    [courses.yml] as it was. *)
Theorem no_new_courses_run_changes_nothing (env : Env) (w : World)
  (existing : pyval) (current : list Course) :
  fst (load_existing_courses env w) = Return existing ->
  fst (get_courses env w) = Return current ->
  new_courses current existing = Return [] ->
  let w' := snd (main env w) in
  let w'' := snd (main env w') in
  fst (main env w) = Return tt
  /\ exit_status (fst (main env w)) = 0
  /\ channel w' = channel w
  /\ courses_yml w' = courses_yml w
  /\ (exists lines,
        app_log w'
        = (app_log w ++ lines ++ [(INFO, "No new courses found.")])%list)
  /\ fst (load_existing_courses env w') = Return existing
  /\ fst (get_courses env w') = Return current
  /\ fst (main env w') = Return tt
  /\ channel w'' = channel w
  /\ courses_yml w'' = courses_yml w.
Proof.
  intros Hload Hget Hnew w' w''.
  pose proof (main_frame env w) as [Hy Hc]. fold w' in Hy, Hc.
  pose proof (main_frame env w') as [Hy' Hc']. fold w'' in Hy', Hc'.
  assert (fst (load_existing_courses env w') = Return existing) as Hload'.
  { now rewrite (load_existing_courses_result env w' w). }
  assert (fst (get_courses env w') = Return current) as Hget'.
  { now rewrite (get_courses_result env w' w). }
  pose proof (main_without_new_courses env w existing current Hload Hget Hnew)
    as Hmain.
  pose proof (main_without_new_courses env w' existing current Hload' Hget' Hnew)
    as Hmain'.
  split; [now rewrite Hmain|]. split; [now rewrite Hmain|].
  split; [exact Hc|]. split; [exact Hy|]. split.
  - unfold w'. rewrite Hmain. cbn [snd].
    destruct (uniform_get_courses env) as [o [l [u H]]]. rewrite H.
    rewrite !log_line_extend, !extend_extend.
    exists ((INFO, "Running!") :: l)%list.
    cbn [snd app_log extend]. now rewrite <- !app_assoc.
  - split; [exact Hload'|]. split; [exact Hget'|].
    split; [now rewrite Hmain'|]. split; congruence.
Qed.

Lemma no_new_courses_run_changes_nothing_witness :
  let snapshot := Some (Document (PList [course_dict Sample.A; course_dict Sample.B])) in
  let w := Sample.world snapshot in
  let w' := snd (main Sample.site_one_page w) in
  let w'' := snd (main Sample.site_one_page w') in
  fst (main Sample.site_one_page w) = Return tt
  /\ exit_status (fst (main Sample.site_one_page w)) = 0
  /\ channel w' = channel w
  /\ courses_yml w' = courses_yml w
  /\ (exists lines,
        app_log w'
        = (app_log w ++ lines ++ [(INFO, "No new courses found.")])%list)
  /\ fst (load_existing_courses Sample.site_one_page w')
     = Return (PList [course_dict Sample.A; course_dict Sample.B])
  /\ fst (get_courses Sample.site_one_page w') = Return [Sample.A; Sample.B]
  /\ fst (main Sample.site_one_page w') = Return tt
  /\ channel w'' = channel w
  /\ courses_yml w'' = courses_yml w.
Proof.
  apply (no_new_courses_run_changes_nothing Sample.site_one_page
           (Sample.world
              (Some (Document (PList [course_dict Sample.A; course_dict Sample.B]))))
           (PList [course_dict Sample.A; course_dict Sample.B])
           [Sample.A; Sample.B]).
  - reflexivity.
  - vm_compute. reflexivity.
  - vm_compute. reflexivity.
Defined.

(* ------------------------------------------------------------------ *)
(** * post_new_courses *)

Lemma post_new_courses_step (c : Course) (rest : list Course) (env : Env)
  (w : World) :
  post_new_courses (c :: rest) env w
  = let n := List.length (channel w) in
    match send_message env n (message_of c) with
    | None =>
        post_new_courses rest env
          (deliver
             (extend w (client_log env n (message_of c) ++ [sent_line c]) [])
             [message_of c])
    | Some err =>
        (Raise (SystemExit 1),
         extend w
           (client_log env n (message_of c) ++ [(ERROR, "Error: " ++ err)]) [])
    end.
Proof.
  unfold post_new_courses. cbn [for_each].
  unfold bind at 1, try_except, bind at 1, bot_send_message. cbv zeta.
  destruct (send_message env (List.length (channel w)) (message_of c))
    as [err|].
  - cbn. unfold extend, log_line. cbn.
    now rewrite app_nil_r, <- app_assoc.
  - cbn. unfold deliver, extend, log_line, sent_line. cbn.
    now rewrite app_nil_r, <- app_assoc.
Qed.

(** When Telegram accepts them all, every course is announced, in order. *)
Lemma post_new_courses_all_delivered (env : Env) (courses : list Course) :
  forall (w : World),
    (forall i c, nth_error courses i = Some c ->
                 send_message env (List.length (channel w) + i) (message_of c)
                 = None) ->
    post_new_courses courses env w
    = (Return tt,
       deliver
         (extend w (announcement_log env (List.length (channel w)) courses) [])
         (map message_of courses)).
Proof.
  induction courses as [|c rest IH]; intros w Hok.
  - unfold post_new_courses, deliver, extend. cbn.
    rewrite !app_nil_r. now destruct w.
  - rewrite post_new_courses_step. cbv zeta.
    pose proof (Hok 0%nat c eq_refl) as H0. rewrite Nat.add_0_r in H0.
    rewrite H0, IH.
    + unfold deliver, extend. cbn. rewrite !app_nil_r, length_app.
      cbn [List.length]. rewrite Nat.add_1_r.
      now rewrite <- !app_assoc.
    + intros i c' Hi. cbn [deliver extend channel].
      rewrite length_app. cbn [List.length].
      replace (List.length (channel w) + 1 + i)%nat
        with (List.length (channel w) + S i)%nat by lia.
      now apply Hok.
Qed.

(** The first refused message ends the loop: error logged, exit with 1,
    the courses after it not offered. *)
Lemma post_new_courses_until_failure (env : Env) (delivered : list Course) :
  forall (w : World) (failed : Course) (unsent : list Course) (err : string),
    (forall i c, nth_error delivered i = Some c ->
                 send_message env (List.length (channel w) + i) (message_of c)
                 = None) ->
    send_message env (List.length (channel w) + List.length delivered)
      (message_of failed) = Some err ->
    post_new_courses (delivered ++ failed :: unsent) env w
    = (Raise (SystemExit 1),
       deliver
         (extend w
            (announcement_log env (List.length (channel w)) delivered
             ++ client_log env
                  (List.length (channel w) + List.length delivered)
                  (message_of failed)
             ++ [(ERROR, "Error: " ++ err)]) [])
         (map message_of delivered)).
Proof.
  induction delivered as [|c rest IH]; intros w failed unsent err Hok Hfail.
  - cbn [app map List.length announcement_log] in *.
    rewrite Nat.add_0_r in *.
    rewrite post_new_courses_step. cbv zeta. rewrite Hfail.
    unfold deliver, extend. cbn. now rewrite !app_nil_r.
  - cbn [app]. rewrite post_new_courses_step. cbv zeta.
    pose proof (Hok 0%nat c eq_refl) as H0. rewrite Nat.add_0_r in H0.
    rewrite H0.
    rewrite (IH _ failed unsent err).
    + unfold deliver, extend. cbn. rewrite !app_nil_r, length_app.
      cbn [List.length]. rewrite Nat.add_1_r, <- Nat.add_succ_comm.
      now rewrite <- !app_assoc.
    + intros i c' Hi. cbn [deliver extend channel].
      rewrite length_app. cbn [List.length].
      replace (List.length (channel w) + 1 + i)%nat
        with (List.length (channel w) + S i)%nat by lia.
      now apply Hok.
    + cbn [deliver extend channel]. rewrite length_app. cbn [List.length].
      replace (List.length (channel w) + 1 + List.length rest)%nat
        with (List.length (channel w) + S (List.length rest))%nat by lia.
      exact Hfail.
Qed.

Lemma bind_site {A B : Type} (c : M A) (k : A -> M B) (env env' : Env)
  (w : World) :
  c env w = c env' w ->
  (forall a w', k a env w' = k a env' w') ->
  bind c k env w = bind c k env' w.
Proof.
  intros Hc Hk. unfold bind. rewrite Hc.
  destruct (c env' w) as [[a|x] w']; [apply Hk|reflexivity].
Qed.

Lemma pages_loop_site (env env' : Env) (numbers : list Z) :
  (forall url, http_get env url = http_get env' url) ->
  forall (acc : list Course) (w : World),
    for_each numbers acc
      (fun courses page =>
         more <- get_course_page page None ;; ret (courses ++ more)%list)
      env w
    = for_each numbers acc
        (fun courses page =>
           more <- get_course_page page None ;; ret (courses ++ more)%list)
        env' w.
Proof.
  intros Hsite.
  induction numbers as [|N rest IH]; intros acc w; [reflexivity|].
  cbn [for_each]. apply bind_site; [|intros; apply IH].
  apply bind_site; [|reflexivity].
  now rewrite !get_course_page_fetch, Hsite.
Qed.

Lemma get_courses_site (env env' : Env) (w : World) :
  (forall url, http_get env url = http_get env' url) ->
  get_courses env w = get_courses env' w.
Proof.
  intros Hsite. rewrite !get_courses_unfold, Hsite.
  destruct (http_get env' COURSE_URL) as [p|msg]; [|reflexivity].
  destruct (ul_pagination p) as [n|]; [|reflexivity].
  destruct (courses_of_page p) as [courses|x]; [|reflexivity].
  destruct (Z.of_nat n - 2 <? 2); [reflexivity|].
  now apply pages_loop_site.
Qed.

(** What Telegram would answer has no part in a run of [main]. *)
Lemma main_ignores_telegram (env env' : Env) (w : World) :
  (forall url, http_get env url = http_get env' url) ->
  main env w = main env' w.
Proof.
  intros Hsite. rewrite !main_unfold. cbv zeta.
  rewrite (get_courses_site env env' _ Hsite).
  reflexivity.
Qed.


(* ------------------------------------------------------------------ *)
(** * The snapshot file *)

(** C10. When [courses.yml] exists and holds no document (an empty file),
    [load_existing_courses] returns [None], which is not the empty list;
    iterating it raises TypeError, so with at least one scraped course
    the loop of [main] raises TypeError and so does [main] (with no
    scraped course the loop body is not run).  The empty list is what the
    function returns when the file does not exist; when it exists the
    function returns what [yaml.safe_load] gives. *)
Theorem empty_snapshot_file_loads_None (env : Env) (w : World) (e : Course)
  (rest : list Course) :
  courses_yml w = Some EmptyStream ->
  fst (get_courses env w) = Return (e :: rest) ->
  load_existing_courses env w = (Return PNone, w)
  /\ PNone <> PList []
  /\ py_iter PNone = Raise TypeError
  /\ new_courses (e :: rest) PNone = Raise TypeError
  /\ new_courses [] PNone = Return []
  /\ fst (main env w) = Raise TypeError
  /\ load_existing_courses env (with_file None w)
     = (Return (PList []), with_file None w)
  /\ (forall file,
        load_existing_courses env (with_file (Some file) w)
        = (yaml_safe_load file, with_file (Some file) w)).
Proof.
  intros Hfile Hget.
  assert (load_existing_courses env w = (Return PNone, w)) as Hload.
  { rewrite load_existing_courses_unfold, Hfile. reflexivity. }
  split; [exact Hload|]. split; [discriminate|].
  split; [reflexivity|]. split; [reflexivity|]. split; [reflexivity|].
  split; [|split; [reflexivity|intros file; reflexivity]].
  rewrite main_unfold. cbv zeta.
  rewrite (load_existing_courses_result env _ w) by reflexivity.
  rewrite Hload. cbn [fst].
  rewrite (get_courses_result env _ w), Hget. reflexivity.
Qed.

Lemma empty_snapshot_file_loads_None_witness :
  let w := Sample.world (Some EmptyStream) in
  load_existing_courses Sample.site_one_page w = (Return PNone, w)
  /\ PNone <> PList []
  /\ py_iter PNone = Raise TypeError
  /\ new_courses (Sample.A :: [Sample.B]) PNone = Raise TypeError
  /\ new_courses [] PNone = Return []
  /\ fst (main Sample.site_one_page w) = Raise TypeError
  /\ load_existing_courses Sample.site_one_page (with_file None w)
     = (Return (PList []), with_file None w)
  /\ (forall file,
        load_existing_courses Sample.site_one_page (with_file (Some file) w)
        = (yaml_safe_load file, with_file (Some file) w)).
Proof.
  apply (empty_snapshot_file_loads_None Sample.site_one_page
           (Sample.world (Some EmptyStream)) Sample.A [Sample.B]).
  - reflexivity.
  - vm_compute. reflexivity.
Defined.

(* ------------------------------------------------------------------ *)
(** * The end-to-end scenario *)

(** C1, on the code.  With [A] in the snapshot and a site listing [A] and
    [B], the scrape gives [A; B] and the diff gives [B], and then [main]
    raises AttributeError at [loop.run]: no message is on the channel and
    [courses.yml] still holds the snapshot with [A] alone. *)
Theorem scenario_A_then_AB_raises_AttributeError :
  let snapshot := Some (Document (PList [course_dict Sample.A])) in
  fst (get_courses Sample.site_one_page (Sample.world snapshot))
  = Return [Sample.A; Sample.B]
  /\ new_courses [Sample.A; Sample.B] (PList [course_dict Sample.A])
     = Return [Sample.B]
  /\ main Sample.site_one_page (Sample.world snapshot)
     = (Raise AttributeError,
        {| courses_yml := snapshot;
           app_log := [(INFO, "Running!")];
           requests := [COURSE_URL];
           channel := [] |}).
Proof.
  cbv zeta.
  split; [vm_compute; reflexivity|].
  split; vm_compute; reflexivity.
Qed.

(** The same scenario through lines 138 to 140 with the method asyncio
    loops do have, [run_until_complete]: one message, for [B], and the
    snapshot [A; B]; the log has the line of httpx before that of the
    program. *)
Example scenario_A_then_AB_with_run_until_complete :
  let snapshot := Some (Document (PList [course_dict Sample.A])) in
  (run <- event_loop_method "run_until_complete" ;;
   run (post_new_courses [Sample.B]) ;;
   save_courses [Sample.A; Sample.B] ;;
   logging_info "New courses found and posted.")
    Sample.site_one_page (Sample.world snapshot)
  = (Return tt,
     {| courses_yml :=
          Some (Document (PList [course_dict Sample.A; course_dict Sample.B]));
        app_log := [Sample.httpx_line; sent_line Sample.B;
                    (INFO, "New courses found and posted.")];
        requests := [];
        channel := [message_of Sample.B] |}).
Proof. vm_compute. reflexivity. Qed.

(* ------------------------------------------------------------------ *)
(** * Further properties: what [parse_course] stores *)

Lemma append_nil_r (s : string) : s ++ "" = s.
Proof. induction s as [|c r IH]; simpl; [reflexivity|now rewrite IH]. Qed.

Lemma append_assoc (s t u : string) : (s ++ t) ++ u = s ++ t ++ u.
Proof. induction s as [|c r IH]; simpl; [reflexivity|now rewrite IH]. Qed.

Lemma rev_onto_append (s acc : string) :
  PyStr.rev_onto s acc = PyStr.rev s ++ acc.
Proof.
  unfold PyStr.rev. revert acc.
  induction s as [|c r IH]; intros acc; simpl.
  - reflexivity.
  - rewrite (IH (String c "")), IH, append_assoc. reflexivity.
Qed.

Lemma rev_cons (c : ascii) (s : string) :
  PyStr.rev (String c s) = PyStr.rev s ++ String c "".
Proof. unfold PyStr.rev at 1. simpl. apply rev_onto_append. Qed.

Lemma rev_snoc (s : string) (c : ascii) :
  PyStr.rev (s ++ String c "") = String c (PyStr.rev s).
Proof.
  induction s as [|a r IH]; simpl.
  - reflexivity.
  - rewrite !rev_cons, IH. reflexivity.
Qed.

Lemma rev_involutive (s : string) : PyStr.rev (PyStr.rev s) = s.
Proof.
  induction s as [|c r IH].
  - reflexivity.
  - rewrite rev_cons, rev_snoc, IH. reflexivity.
Qed.

Lemma lstrip_head (s : string) : starts_with_space (PyStr.lstrip s) = false.
Proof.
  induction s as [|c r IH]; simpl.
  - reflexivity.
  - destruct (PyStr.isspace c) eqn:Hc; [exact IH|].
    simpl. exact Hc.
Qed.

Lemma lstrip_fixed (s : string) :
  starts_with_space s = false -> PyStr.lstrip s = s.
Proof.
  destruct s as [|c r]; simpl; [reflexivity|].
  now intros ->.
Qed.

Lemma lstrip_snoc (s : string) (c : ascii) :
  PyStr.isspace c = false ->
  PyStr.lstrip (s ++ String c "") = PyStr.lstrip s ++ String c "".
Proof.
  intros Hc. induction s as [|a r IH]; simpl.
  - now rewrite Hc.
  - destruct (PyStr.isspace a); [exact IH|reflexivity].
Qed.

Lemma rstrip_cons (c : ascii) (s : string) :
  PyStr.isspace c = false ->
  PyStr.rstrip (String c s) = String c (PyStr.rstrip s).
Proof.
  intros Hc. unfold PyStr.rstrip.
  now rewrite rev_cons, lstrip_snoc, rev_snoc.
Qed.

Lemma rstrip_fixed (s : string) :
  starts_with_space (PyStr.rev s) = false -> PyStr.rstrip s = s.
Proof.
  intros H. unfold PyStr.rstrip.
  now rewrite lstrip_fixed, rev_involutive.
Qed.

Lemma strip_trimmed (s : string) : trimmed (PyStr.strip s).
Proof.
  assert (starts_with_space (PyStr.strip s) = false) as Hhead.
  { unfold PyStr.strip.
    pose proof (lstrip_head s) as H.
    destruct (PyStr.lstrip s) as [|c r]; [reflexivity|].
    simpl in H. now rewrite rstrip_cons. }
  assert (starts_with_space (PyStr.rev (PyStr.strip s)) = false) as Hlast.
  { unfold PyStr.strip, PyStr.rstrip.
    rewrite rev_involutive. apply lstrip_head. }
  split; [|split; assumption].
  unfold PyStr.strip at 1.
  now rewrite lstrip_fixed, rstrip_fixed.
Qed.

Lemma parse_course_texts (e : CourseElement) :
  parse_course e
  = match texts e with
    | Some r => Return (course_of_texts r)
    | None => Raise AttributeError
    end.
Proof.
  unfold parse_course, texts, text_strip, obind.
  destruct (h3_hs_event_titel e) as [t|];
    destruct (div_hs_dates e) as [[[d|]|]|];
    destruct (span_hs_curse_discription e) as [x|]; reflexivity.
Qed.

(** X1. The title, date and description of every course [parse_course]
    returns are trimmed: stripping them again changes nothing, and none
    starts or ends with white space, whatever the texts of the block
    were. *)
Theorem parsed_fields_are_trimmed (e : CourseElement) (c : Course) :
  parse_course e = Return c ->
  trimmed (title c) /\ trimmed (date c) /\ trimmed (description c).
Proof.
  rewrite parse_course_texts.
  destruct (texts e) as [[[t d] x]|]; [|discriminate].
  intros H. injection H as <-. cbn.
  split; [|split]; apply strip_trimmed.
Qed.

Lemma parsed_fields_are_trimmed_witness :
  trimmed (title Sample.A) /\ trimmed (date Sample.A)
  /\ trimmed (description Sample.A).
Proof.
  apply (parsed_fields_are_trimmed
           (Sample.element
              (PyStr.LF ++ "  Python ") "01.02.2025 " (" Basics" ++ PyStr.LF))).
  vm_compute. reflexivity.
Defined.

Lemma hex_length (bytes : list Z) :
  String.length (MD5.hex bytes) = (2 * List.length bytes)%nat.
Proof.
  induction bytes as [|b rest IH]; simpl; [reflexivity|].
  rewrite IH. lia.
Qed.

Lemma hex_digit_is_lower_hex (n : Z) :
  0 <= n < 16 -> is_lower_hex (MD5.hex_digit n) = true.
Proof.
  intros H.
  assert (exists k, (k < 16)%nat /\ n = Z.of_nat k) as [k [Hk ->]].
  { exists (Z.to_nat n). lia. }
  do 16 (destruct k as [|k]; [reflexivity|]). lia.
Qed.

Lemma hex_is_lower_hex (bytes : list Z) :
  Forall (fun b => 0 <= b < 256) bytes ->
  string_forallb is_lower_hex (MD5.hex bytes) = true.
Proof.
  induction 1 as [|b rest Hb _ IH]; simpl; [reflexivity|].
  rewrite IH, !hex_digit_is_lower_hex; [reflexivity| |].
  - change 15 with (Z.ones 4). rewrite Z.land_ones by lia.
    apply Z.mod_pos_bound. lia.
  - rewrite Z.shiftr_div_pow2 by lia. change (2 ^ 4) with 16.
    split; [apply Z.div_pos; lia|apply Z.div_lt_upper_bound; lia].
Qed.

Lemma le_bytes_range (count : nat) (x : Z) :
  Forall (fun b => 0 <= b < 256) (MD5.le_bytes count x).
Proof.
  unfold MD5.le_bytes. apply Forall_map, Forall_forall. intros i _.
  change 255 with (Z.ones 8). rewrite Z.land_ones by lia.
  apply Z.mod_pos_bound. lia.
Qed.

Lemma le_bytes_length (count : nat) (x : Z) :
  List.length (MD5.le_bytes count x) = count.
Proof. unfold MD5.le_bytes. now rewrite length_map, length_seq. Qed.

Lemma hexdigest_shape (msg : list Z) :
  String.length (MD5.hexdigest msg) = 32%nat
  /\ string_forallb is_lower_hex (MD5.hexdigest msg) = true.
Proof.
  unfold MD5.hexdigest, MD5.digest.
  destruct (fold_left MD5.compress _ MD5.init) as [[[a b] c] d].
  split.
  - rewrite hex_length, !length_app, !le_bytes_length. reflexivity.
  - apply hex_is_lower_hex.
    repeat (apply Forall_app; split); apply le_bytes_range.
Qed.

(** X2. The id of every course [parse_course] returns is a string of
    exactly 32 characters, each one of 0-9 or a-f, whatever the three
    texts are. *)
Theorem parsed_id_is_32_hex_digits (e : CourseElement) (c : Course) :
  parse_course e = Return c ->
  String.length (id c) = 32%nat
  /\ string_forallb is_lower_hex (id c) = true.
Proof.
  rewrite parse_course_texts.
  destruct (texts e) as [[[t d] x]|]; [|discriminate].
  intros H. injection H as <-. cbn. apply hexdigest_shape.
Qed.

Lemma parsed_id_is_32_hex_digits_witness :
  String.length (id Sample.B) = 32%nat
  /\ string_forallb is_lower_hex (id Sample.B) = true.
Proof.
  apply (parsed_id_is_32_hex_digits (Sample.element "X" "Y" "Z")).
  vm_compute. reflexivity.
Defined.

(* ------------------------------------------------------------------ *)
(** * Further properties: pages *)

Lemma parse_all_complete (elements : list CourseElement) :
  forall raw,
    map texts elements = map Some raw ->
    parse_all elements = Return (map course_of_texts raw).
Proof.
  induction elements as [|e rest IH]; intros [|r raw] H; try discriminate.
  - reflexivity.
  - cbn [map] in H. injection H as He Hrest.
    cbn [parse_all map]. rewrite parse_course_texts, He. cbn [obind].
    now rewrite (IH raw Hrest).
Qed.

Lemma parse_all_raises (elements : list CourseElement) (x : exn) :
  parse_all elements = Raise x -> x = AttributeError.
Proof.
  induction elements as [|e rest IH]; cbn [parse_all]; [discriminate|].
  rewrite parse_course_texts.
  destruct (texts e); cbn [obind]; [|congruence].
  destruct (parse_all rest); cbn [obind]; [discriminate|].
  intros H. apply IH. congruence.
Qed.

Lemma parse_all_incomplete (elements : list CourseElement) (e : CourseElement) :
  In e elements -> texts e = None ->
  parse_all elements = Raise AttributeError.
Proof.
  intros Hin He.
  destruct (parse_all elements) as [cs|x] eqn:Hp.
  - exfalso. revert cs Hp.
    induction elements as [|e0 rest IH]; [contradiction|].
    intros cs. cbn [parse_all]. rewrite parse_course_texts.
    destruct Hin as [->|Hin].
    + rewrite He. discriminate.
    + destruct (texts e0); [|discriminate]. cbn [obind].
      destruct (parse_all rest) as [cs'|]; [|discriminate].
      intros _. now apply (IH Hin cs').
  - now rewrite (parse_all_raises _ _ Hp).
Qed.

(** X3. For a page whose blocks all have their three texts,
    [get_course_page] returns one course per block, in document order and
    with nothing merged or removed, each with the trimmed texts and
    their digest; when the page is handed in no request is made and
    nothing is logged, when it is fetched the one request is for
    base URL + "&event_page=" + N. *)
Theorem one_course_per_block (env : Env) (w : World) (N : Z) (p : Page)
  (raw : list (string * string * string)) :
  map texts (div_hs_event p) = map Some raw ->
  http_get env (COURSE_URL ++ "&event_page=" ++ PyStr.of_int N) = Response p ->
  get_course_page N (Some p) env w = (Return (map course_of_texts raw), w)
  /\ get_course_page N None env w
     = (Return (map course_of_texts raw),
        extend w [] [COURSE_URL ++ "&event_page=" ++ PyStr.of_int N])
  /\ List.length (map course_of_texts raw) = List.length (div_hs_event p).
Proof.
  intros Htexts Hget.
  pose proof (parse_all_complete _ _ Htexts) as Hparse.
  split; [|split].
  - rewrite get_course_page_given. unfold courses_of_page. now rewrite Hparse.
  - rewrite get_course_page_fetch. unfold page_url. rewrite Hget.
    unfold courses_of_page. now rewrite Hparse.
  - apply (f_equal (@List.length _)) in Htexts.
    rewrite !length_map in *. congruence.
Qed.

Lemma one_course_per_block_witness :
  get_course_page 2 (Some Sample.page_C) Sample.site_two_pages
    (Sample.world None)
  = (Return (map course_of_texts [("Scratch", "03.04.2025", "Games")]),
     Sample.world None)
  /\ get_course_page 2 None Sample.site_two_pages (Sample.world None)
     = (Return (map course_of_texts [("Scratch", "03.04.2025", "Games")]),
        extend (Sample.world None) []
          [COURSE_URL ++ "&event_page=" ++ PyStr.of_int 2])
  /\ List.length (map course_of_texts [("Scratch", "03.04.2025", "Games")])
     = List.length (div_hs_event Sample.page_C).
Proof.
  apply (one_course_per_block Sample.site_two_pages (Sample.world None) 2
           Sample.page_C [("Scratch", "03.04.2025", "Games")]).
  - reflexivity.
  - vm_compute. reflexivity.
Defined.

(** X4. A block of the first page that lacks one of its three texts
    makes [get_courses] raise AttributeError after the one request, with
    nothing logged and no course returned, also for the blocks before it
    and whatever the pagination announces; [main] then ends with that
    exception, exit status 1, and only "Running!" in the log. *)
Theorem incomplete_block_aborts_run (env : Env) (w : World) (p : Page)
  (n : nat) (e : CourseElement) (existing : pyval) :
  http_get env COURSE_URL = Response p ->
  ul_pagination p = Some n ->
  In e (div_hs_event p) ->
  texts e = None ->
  fst (load_existing_courses env w) = Return existing ->
  get_courses env w = (Raise AttributeError, extend w [] [COURSE_URL])
  /\ main env w
     = (Raise AttributeError, extend w [(INFO, "Running!")] [COURSE_URL])
  /\ exit_status (fst (main env w)) = 1.
Proof.
  intros Hget Hpag Hin He Hload.
  assert (forall w0, get_courses env w0
                     = (Raise AttributeError, extend w0 [] [COURSE_URL])) as Hc.
  { intros w0. rewrite get_courses_unfold, Hget, Hpag. unfold courses_of_page.
    now rewrite (parse_all_incomplete _ e Hin He). }
  assert (main env w
          = (Raise AttributeError, extend w [(INFO, "Running!")] [COURSE_URL]))
    as Hmain.
  { rewrite main_unfold. cbv zeta.
    rewrite (load_existing_courses_result env _ w) by reflexivity.
    rewrite Hload, Hc. cbn [fst snd].
    now rewrite log_line_extend, extend_extend. }
  split; [apply Hc|]. split; [exact Hmain|]. now rewrite Hmain.
Qed.

Lemma incomplete_block_aborts_run_witness :
  get_courses Cases.site_broken (Sample.world None)
  = (Raise AttributeError, extend (Sample.world None) [] [COURSE_URL])
  /\ main Cases.site_broken (Sample.world None)
     = (Raise AttributeError,
        extend (Sample.world None) [(INFO, "Running!")] [COURSE_URL])
  /\ exit_status (fst (main Cases.site_broken (Sample.world None))) = 1.
Proof.
  apply (incomplete_block_aborts_run Cases.site_broken (Sample.world None)
           Cases.page_broken 4%nat Cases.no_date (PList [])).
  - reflexivity.
  - reflexivity.
  - simpl. right. left. reflexivity.
  - reflexivity.
  - reflexivity.
Defined.

(** X5. When the request for the first page fails, [main] logs
    "Error fetching courses: " followed by the error at level ERROR and
    ends with SystemExit(1), exit status 1: one request was made, no
    message is delivered and [courses.yml] is as before. *)
Theorem first_page_failure_is_fatal (env : Env) (w : World)
  (existing : pyval) (msg : string) :
  fst (load_existing_courses env w) = Return existing ->
  http_get env COURSE_URL = RequestFailed msg ->
  main env w
  = (Raise (SystemExit 1),
     extend w [(INFO, "Running!"); (ERROR, "Error fetching courses: " ++ msg)]
       [COURSE_URL])
  /\ exit_status (fst (main env w)) = 1
  /\ channel (snd (main env w)) = channel w
  /\ courses_yml (snd (main env w)) = courses_yml w.
Proof.
  intros Hload Hget.
  assert (main env w
          = (Raise (SystemExit 1),
             extend w
               [(INFO, "Running!"); (ERROR, "Error fetching courses: " ++ msg)]
               [COURSE_URL])) as Hmain.
  { rewrite main_unfold. cbv zeta.
    rewrite (load_existing_courses_result env _ w) by reflexivity.
    rewrite Hload, get_courses_unfold, Hget. cbn [fst snd].
    now rewrite log_line_extend, extend_extend. }
  rewrite Hmain. cbn [fst snd]. repeat split; reflexivity.
Qed.

Lemma first_page_failure_is_fatal_witness :
  let w := Sample.world (Some (Document (PList [course_dict Sample.A]))) in
  main Cases.site_down w
  = (Raise (SystemExit 1),
     extend w
       [(INFO, "Running!");
        (ERROR, "Error fetching courses: " ++ "Connection refused")]
       [COURSE_URL])
  /\ exit_status (fst (main Cases.site_down w)) = 1
  /\ channel (snd (main Cases.site_down w)) = channel w
  /\ courses_yml (snd (main Cases.site_down w)) = courses_yml w.
Proof.
  apply (first_page_failure_is_fatal Cases.site_down
           (Sample.world (Some (Document (PList [course_dict Sample.A]))))
           (PList [course_dict Sample.A]) "Connection refused").
  - reflexivity.
  - reflexivity.
Defined.

Lemma map_seq_from (A : Type) (f : nat -> A) (a b : nat) :
  map f (seq a b) = map (fun i => f (a + i)%nat) (seq 0 b).
Proof.
  revert a f.
  induction b as [|b IH]; intros a f; [reflexivity|].
  cbn [seq map]. rewrite Nat.add_0_r. f_equal.
  rewrite (IH (S a)), (IH 1%nat).
  apply map_ext. intros i. f_equal. lia.
Qed.

Lemma range_split (lo hi k : Z) :
  lo <= k < hi ->
  range lo hi = (range lo k ++ k :: range (k + 1) hi)%list.
Proof.
  intros H. unfold range.
  replace (Z.to_nat (hi - lo))
    with (Z.to_nat (k - lo) + S (Z.to_nat (hi - (k + 1))))%nat by lia.
  rewrite seq_app, map_app. f_equal.
  cbn [seq map Nat.add]. f_equal; [lia|].
  rewrite map_seq_from. apply map_ext. intros i. lia.
Qed.

Lemma range_last (lo k : Z) :
  lo <= k -> range lo (k + 1) = (range lo k ++ [k])%list.
Proof.
  intros H. rewrite (range_split lo (k + 1) k) by lia.
  assert (range (k + 1) (k + 1) = []) as ->; [|reflexivity].
  unfold range. now rewrite Z.sub_diag.
Qed.

(** The loop over the pages stops at the first page that raises. *)
Lemma pages_loop_stops (env : Env) (pages : Z -> Page)
  (cs : Z -> list Course) (k : Z) (x : exn) (lines : list (level * string))
  (post : list Z) (pre : list Z) :
  (forall N, In N pre ->
             http_get env (page_url N) = Response (pages N)
             /\ courses_of_page (pages N) = Return (cs N)) ->
  (forall w', get_course_page k None env w'
              = (Raise x, extend w' lines [page_url k])) ->
  forall (acc : list Course) (w : World),
    for_each (pre ++ k :: post) acc
      (fun courses page =>
         more <- get_course_page page None ;; ret (courses ++ more)%list)
      env w
    = (Raise x, extend w lines (map page_url (pre ++ [k]))).
Proof.
  intros Hpre Hk.
  induction pre as [|N rest IH]; intros acc w; cbn [app for_each map].
  - unfold bind at 1. unfold bind at 1. now rewrite Hk.
  - destruct (Hpre N (or_introl eq_refl)) as [Hget Hparse].
    unfold bind at 1. unfold bind at 1.
    rewrite get_course_page_fetch, Hget, Hparse. unfold ret at 1.
    rewrite IH by (intros N' HN'; apply Hpre; now right).
    now rewrite extend_extend.
Qed.

(** X6. When the pages before page [k] (2 <= k <= n - 2) answer and
    parse and the request for page [k] fails, [get_courses] logs the
    error and raises SystemExit(1): the courses collected so far are not
    returned, and the pages after [k] are not requested. *)
Theorem later_page_failure_is_fatal (env : Env) (w : World) (p1 : Page)
  (n : nat) (pages : Z -> Page) (cs1 : list Course) (cs : Z -> list Course)
  (k : Z) (msg : string) :
  http_get env COURSE_URL = Response p1 ->
  ul_pagination p1 = Some n ->
  courses_of_page p1 = Return cs1 ->
  2 <= k <= Z.of_nat n - 2 ->
  (forall N, 2 <= N < k ->
             http_get env (COURSE_URL ++ "&event_page=" ++ PyStr.of_int N)
             = Response (pages N)
             /\ courses_of_page (pages N) = Return (cs N)) ->
  http_get env (COURSE_URL ++ "&event_page=" ++ PyStr.of_int k)
  = RequestFailed msg ->
  get_courses env w
  = (Raise (SystemExit 1),
     extend w [(ERROR, "Error fetching courses: " ++ msg)]
       (COURSE_URL
        :: map (fun N => COURSE_URL ++ "&event_page=" ++ PyStr.of_int N)
             (range 2 (k + 1)))).
Proof.
  intros Hget Hpag Hp1 Hk Hpages Hfail.
  rewrite get_courses_unfold, Hget, Hpag, Hp1.
  assert ((Z.of_nat n - 2 <? 2) = false) as -> by (apply Z.ltb_ge; lia).
  rewrite (range_split 2 (Z.of_nat n - 2 + 1) k) by lia.
  rewrite (pages_loop_stops env pages cs k (SystemExit 1)
             [(ERROR, "Error fetching courses: " ++ msg)]).
  - rewrite extend_extend, <- range_last by lia. reflexivity.
  - intros N HN. apply in_range in HN. now apply Hpages.
  - intros w'. rewrite get_course_page_fetch. unfold page_url.
    now rewrite Hfail.
Qed.

Lemma later_page_failure_is_fatal_witness :
  get_courses Cases.site_page_2_down (Sample.world None)
  = (Raise (SystemExit 1),
     extend (Sample.world None)
       [(ERROR, "Error fetching courses: " ++ "Read timed out")]
       (COURSE_URL
        :: map (fun N => COURSE_URL ++ "&event_page=" ++ PyStr.of_int N)
             (range 2 (2 + 1)))).
Proof.
  apply (later_page_failure_is_fatal Cases.site_page_2_down
           (Sample.world None) Cases.page_of_3 5%nat
           (fun _ => Sample.page_C) [Sample.A; Sample.B] (fun _ => [])).
  - vm_compute. reflexivity.
  - reflexivity.
  - vm_compute. reflexivity.
  - lia.
  - intros N HN. lia.
  - vm_compute. reflexivity.
Defined.

Lemma pages_loop_requests (env : Env) (numbers : list Z) :
  forall (acc : list Course) (w : World),
  exists k o lines,
    for_each numbers acc
      (fun courses page =>
         more <- get_course_page page None ;; ret (courses ++ more)%list)
      env w
    = (o, extend w lines (map page_url (firstn k numbers))).
Proof.
  induction numbers as [|N rest IH]; intros acc w.
  - exists 0%nat, (Return acc), []. cbn. unfold ret. now rewrite extend_nil.
  - cbn [for_each]. unfold bind at 1. unfold bind at 1.
    rewrite get_course_page_fetch.
    destruct (http_get env (page_url N)) as [p|msg].
    + destruct (courses_of_page p) as [more|x].
      * unfold ret at 1.
        destruct (IH (acc ++ more)%list (extend w [] [page_url N]))
          as [k [o [lines H]]].
        exists (S k), o, lines. rewrite H, extend_extend. reflexivity.
      * exists 1%nat, (Raise x), []. reflexivity.
    + exists 1%nat, (Raise (SystemExit 1)),
        [(ERROR, "Error fetching courses: " ++ msg)]. reflexivity.
Qed.

(** X7. However the scrape ends, the requests [get_courses] has made are
    the base URL, once and first, followed by the URLs of the first [k]
    of the pages 2 to [n - 2], in this order, for some [k]: no page is
    requested twice, none out of order, none beyond [n - 2], and page 1
    never by its page number. *)
Theorem requests_are_a_prefix_of_the_pages (env : Env) (w : World) (p : Page)
  (n : nat) :
  http_get env COURSE_URL = Response p ->
  ul_pagination p = Some n ->
  exists k,
    requests (snd (get_courses env w))
    = (requests w
       ++ COURSE_URL
          :: map (fun N => (COURSE_URL ++ "&event_page=" ++ PyStr.of_int N)%string)
               (firstn k (range 2 (Z.of_nat n - 2 + 1))))%list.
Proof.
  intros Hget Hpag. rewrite get_courses_unfold, Hget, Hpag.
  destruct (courses_of_page p) as [courses|x]; [|now exists 0%nat].
  destruct (Z.of_nat n - 2 <? 2); [now exists 0%nat|].
  destruct (pages_loop_requests env (range 2 (Z.of_nat n - 2 + 1)) courses
              (extend w [] [COURSE_URL])) as [k [o [lines H]]].
  exists k. rewrite H, extend_extend. reflexivity.
Qed.

Lemma requests_are_a_prefix_of_the_pages_witness :
  exists k,
    requests (snd (get_courses Cases.site_page_2_down (Sample.world None)))
    = (requests (Sample.world None)
       ++ COURSE_URL
          :: map (fun N => (COURSE_URL ++ "&event_page=" ++ PyStr.of_int N)%string)
               (firstn k (range 2 (Z.of_nat 5 - 2 + 1))))%list.
Proof.
  apply (requests_are_a_prefix_of_the_pages Cases.site_page_2_down
           (Sample.world None) Cases.page_of_3 5%nat).
  - vm_compute. reflexivity.
  - reflexivity.
Defined.

(** X8. When the first page has no pagination container, [main] returns
    normally, exit status 0, whatever value the snapshot file loaded to
    (a list, [None], a number): the log gets "Running!", the error
    "Pagination container not found" and "No new courses found.", one
    request is made, no message is delivered and [courses.yml] is as
    before. *)
Theorem missing_pagination_run_ends_normally (env : Env) (w : World)
  (p : Page) (existing : pyval) :
  fst (load_existing_courses env w) = Return existing ->
  http_get env COURSE_URL = Response p ->
  ul_pagination p = None ->
  main env w
  = (Return tt,
     extend w
       [(INFO, "Running!"); (ERROR, "Pagination container not found");
        (INFO, "No new courses found.")]
       [COURSE_URL])
  /\ exit_status (fst (main env w)) = 0.
Proof.
  intros Hload Hget Hpag.
  assert (main env w
          = (Return tt,
             extend w
               [(INFO, "Running!"); (ERROR, "Pagination container not found");
                (INFO, "No new courses found.")]
               [COURSE_URL])) as Hmain.
  { rewrite main_unfold. cbv zeta.
    rewrite (load_existing_courses_result env _ w) by reflexivity.
    rewrite Hload, get_courses_unfold, Hget, Hpag. cbn [fst snd new_courses
      new_courses_loop].
    now rewrite !log_line_extend, !extend_extend. }
  now rewrite Hmain.
Qed.

Lemma missing_pagination_run_ends_normally_witness :
  let w := Sample.world (Some EmptyStream) in
  main Sample.site_bare w
  = (Return tt,
     extend w
       [(INFO, "Running!"); (ERROR, "Pagination container not found");
        (INFO, "No new courses found.")]
       [COURSE_URL])
  /\ exit_status (fst (main Sample.site_bare w)) = 0.
Proof.
  apply (missing_pagination_run_ends_normally Sample.site_bare
           (Sample.world (Some EmptyStream)) Sample.page_bare PNone).
  - reflexivity.
  - reflexivity.
  - reflexivity.
Defined.

(* ------------------------------------------------------------------ *)
(** * Further properties: the notifier *)

Lemma single_line_append (s t : string) :
  single_line (s ++ t) = single_line s && single_line t.
Proof.
  unfold single_line.
  induction s as [|c r IH]; simpl; [reflexivity|].
  now rewrite IH, andb_assoc.
Qed.

Lemma escape_newlines_single_line (s : string) :
  single_line (PyStr.escape_newlines s) = true.
Proof.
  unfold single_line.
  induction s as [|c r IH]; simpl; [reflexivity|].
  destruct (PyStr.ord c =? 10) eqn:Hc; simpl.
  - exact IH.
  - now rewrite Hc, IH.
Qed.

(** X9. When Telegram accepts every message, [post_new_courses] returns
    normally after delivering exactly one message per course, in the
    order of the list and also for courses listed twice.  For each
    course in turn the log gets the lines the libraries under the send
    write (the request line of httpx), then one INFO line of the
    program, "Message sent: " and the text with its line feeds escaped:
    no line of the program contains a line feed.  Requests and
    [courses.yml] are untouched.  For the empty list nothing happens. *)
Theorem every_course_is_announced_in_order (env : Env) (w : World)
  (courses : list Course) :
  (forall i c, nth_error courses i = Some c ->
               send_message env (List.length (channel w) + i) (message_of c)
               = None) ->
  let w' := snd (post_new_courses courses env w) in
  fst (post_new_courses courses env w) = Return tt
  /\ channel w' = (channel w ++ map message_of courses)%list
  /\ app_log w'
     = (app_log w
        ++ announcement_log env (List.length (channel w)) courses)%list
  /\ forallb (fun line => single_line (snd line)) (map sent_line courses) = true
  /\ requests w' = requests w
  /\ courses_yml w' = courses_yml w.
Proof.
  intros Hok w'. unfold w'.
  rewrite (post_new_courses_all_delivered env courses w Hok).
  cbn [fst snd deliver extend channel app_log requests courses_yml].
  split; [reflexivity|]. split; [reflexivity|]. split; [reflexivity|].
  split; [|split; [apply app_nil_r|reflexivity]].
  apply forallb_forall. intros line Hin.
  apply in_map_iff in Hin. destruct Hin as [c [<- _]].
  unfold sent_line. cbn [snd].
  rewrite single_line_append, escape_newlines_single_line. reflexivity.
Qed.

Lemma every_course_is_announced_in_order_witness :
  let courses := [Sample.B; Sample.A; Sample.B] in
  let w := Sample.world None in
  let w' := snd (post_new_courses courses Sample.site_one_page w) in
  fst (post_new_courses courses Sample.site_one_page w) = Return tt
  /\ channel w' = (channel w ++ map message_of courses)%list
  /\ app_log w'
     = (app_log w
        ++ announcement_log Sample.site_one_page (List.length (channel w))
             courses)%list
  /\ forallb (fun line => single_line (snd line)) (map sent_line courses) = true
  /\ requests w' = requests w
  /\ courses_yml w' = courses_yml w.
Proof.
  apply (every_course_is_announced_in_order Sample.site_one_page
           (Sample.world None) [Sample.B; Sample.A; Sample.B]).
  intros i c Hi. reflexivity.
Defined.

(** On the sample site the log of three announcements is the line of
    httpx and the line of the program, three times. *)
Example announcement_log_example :
  announcement_log Sample.site_one_page 0 [Sample.B; Sample.A; Sample.B]
  = [Sample.httpx_line; sent_line Sample.B;
     Sample.httpx_line; sent_line Sample.A;
     Sample.httpx_line; sent_line Sample.B].
Proof. reflexivity. Qed.

(* ------------------------------------------------------------------ *)
(** * Further properties: the snapshot and the diff *)

Lemma any_id_equal_stops (e_id : string) (good : list Course)
  (rest : list pyval) :
  any_id_equal e_id (map course_dict good ++ rest)
  = if existsb (fun f => String.eqb e_id (id f)) good then Return true
    else any_id_equal e_id rest.
Proof.
  induction good as [|f more IH]; [reflexivity|]. simpl.
  destruct (String.eqb e_id (id f)); [reflexivity|exact IH].
Qed.

Lemma new_courses_loop_known (known : list Course) (existing : list pyval) :
  (forall e, In e known -> any_id_equal (id e) existing = Return true) ->
  forall rest acc,
    new_courses_loop (known ++ rest) (PList existing) acc
    = new_courses_loop rest (PList existing) acc.
Proof.
  intros Hknown rest acc.
  induction known as [|e more IH]; [reflexivity|].
  cbn [app new_courses_loop py_iter obind].
  rewrite (Hknown e (or_introl eq_refl)). cbn [obind negb].
  apply IH. intros e' He'. apply Hknown. now right.
Qed.

(** X11. The search for an id stops at the first snapshot entry that has
    it: when every scraped course has its id among the first entries of
    the snapshot, the diff is empty whatever follows these entries,
    entries that are no dicts or have no id included. *)
Theorem entries_after_a_match_are_not_read (current good : list Course)
  (rest : list pyval) :
  forallb (fun e => existsb (fun f => String.eqb (id e) (id f)) good) current
  = true ->
  new_courses current (PList (map course_dict good ++ rest)) = Return [].
Proof.
  intros Hall. unfold new_courses.
  rewrite <- (app_nil_r current).
  rewrite new_courses_loop_known; [reflexivity|].
  intros e He. rewrite any_id_equal_stops.
  rewrite forallb_forall in Hall. now rewrite (Hall e He).
Qed.

Lemma entries_after_a_match_are_not_read_witness :
  new_courses [Sample.B; Sample.A]
    (PList (map course_dict [Sample.A; Sample.B]
            ++ [Cases.entry_without_id; PInt 7; PNone]))
  = Return [].
Proof.
  apply (entries_after_a_match_are_not_read [Sample.B; Sample.A]
           [Sample.A; Sample.B] [Cases.entry_without_id; PInt 7; PNone]).
  vm_compute. reflexivity.
Defined.

Lemma py_getitem_raises (v : pyval) (key : string) (x : exn) :
  py_getitem v key = Raise x -> x = KeyError \/ x = TypeError.
Proof.
  destruct v; cbn; try (intros H; injection H as <-; now right).
  destruct (find _ entries); [discriminate|].
  intros H. injection H as <-. now left.
Qed.

(** X12. When the scraped courses before [e] are all known by the first
    entries [good] of the snapshot, [e] is not, and the next entry is no
    dict (TypeError) or a dict without the key "id" (KeyError), the diff
    raises that exception: no list of new courses is computed, also not
    for the courses after [e]; [main] ends with it, exit status 1,
    having delivered and written nothing. *)
Theorem snapshot_entry_without_id_aborts (env : Env) (w : World)
  (known : list Course) (e : Course) (more good : list Course) (bad : pyval)
  (rest : list pyval) (x : exn) :
  forallb (fun c => existsb (fun f => String.eqb (id c) (id f)) good) known
  = true ->
  existsb (fun f => String.eqb (id e) (id f)) good = false ->
  py_getitem bad "id" = Raise x ->
  fst (load_existing_courses env w)
  = Return (PList (map course_dict good ++ bad :: rest)) ->
  fst (get_courses env w) = Return (known ++ e :: more)%list ->
  new_courses (known ++ e :: more) (PList (map course_dict good ++ bad :: rest))
  = Raise x
  /\ (x = KeyError \/ x = TypeError)
  /\ fst (main env w) = Raise x
  /\ exit_status (fst (main env w)) = 1
  /\ channel (snd (main env w)) = channel w
  /\ courses_yml (snd (main env w)) = courses_yml w.
Proof.
  intros Hknown He Hbad Hload Hget.
  assert (new_courses (known ++ e :: more)
            (PList (map course_dict good ++ bad :: rest)) = Raise x) as Hdiff.
  { unfold new_courses. rewrite new_courses_loop_known.
    - cbn [new_courses_loop py_iter obind].
      rewrite any_id_equal_stops, He. cbn [any_id_equal].
      now rewrite Hbad.
    - intros c Hc. rewrite any_id_equal_stops.
      rewrite forallb_forall in Hknown. now rewrite (Hknown c Hc). }
  pose proof (py_getitem_raises _ _ _ Hbad) as Hx.
  assert (fst (main env w) = Raise x) as Hmain.
  { rewrite main_unfold. cbv zeta.
    rewrite (load_existing_courses_result env _ w) by reflexivity.
    rewrite Hload, (get_courses_result env _ w), Hget, Hdiff. reflexivity. }
  split; [exact Hdiff|]. split; [exact Hx|]. split; [exact Hmain|].
  split; [|split; apply main_frame].
  rewrite Hmain. destruct Hx as [-> | ->]; reflexivity.
Qed.

Lemma snapshot_entry_without_id_aborts_witness :
  let w := Sample.world
             (Some (Document (PList (map course_dict [Sample.A]
                                     ++ Cases.entry_without_id :: [])))) in
  new_courses ([Sample.A] ++ Sample.B :: [])
    (PList (map course_dict [Sample.A] ++ Cases.entry_without_id :: []))
  = Raise KeyError
  /\ (KeyError = KeyError \/ KeyError = TypeError)
  /\ fst (main Sample.site_one_page w) = Raise KeyError
  /\ exit_status (fst (main Sample.site_one_page w)) = 1
  /\ channel (snd (main Sample.site_one_page w)) = channel w
  /\ courses_yml (snd (main Sample.site_one_page w)) = courses_yml w.
Proof.
  apply (snapshot_entry_without_id_aborts Sample.site_one_page
           (Sample.world
              (Some (Document (PList (map course_dict [Sample.A]
                                      ++ Cases.entry_without_id :: [])))))
           [Sample.A] Sample.B [] [Sample.A] Cases.entry_without_id []
           KeyError).
  - vm_compute. reflexivity.
  - vm_compute. reflexivity.
  - reflexivity.
  - reflexivity.
  - vm_compute. reflexivity.
Defined.

Lemma new_courses_loop_acc (current : list Course) (existing : pyval) :
  forall acc,
    new_courses_loop current existing acc
    = (l <~ new_courses_loop current existing [] ;; Return (acc ++ l)%list).
Proof.
  induction current as [|e rest IH]; intros acc; cbn [new_courses_loop].
  - cbn. now rewrite app_nil_r.
  - destruct (py_iter existing) as [items|x]; [|reflexivity]. cbn [obind].
    destruct (any_id_equal (id e) items) as [[|]|x]; cbn [obind negb];
      [apply IH| |reflexivity].
    rewrite (IH (acc ++ [e])%list), (IH ([] ++ [e])%list).
    destruct (new_courses_loop rest existing []) as [l|x]; [|reflexivity].
    cbn. now rewrite <- app_assoc.
Qed.

(** X13. The diff looks at each scraped course on its own: for every
    value of the snapshot, the new courses of [first ++ second] are those
    of [first] followed by those of [second] (and the exception of the
    first of the two that raises); so a course that is listed twice and
    is not in the snapshot is reported twice. *)
Theorem diff_is_course_by_course (first second : list Course)
  (existing : pyval) :
  new_courses (first ++ second) existing
  = (l1 <~ new_courses first existing ;;
     l2 <~ new_courses second existing ;;
     Return (l1 ++ l2)%list).
Proof.
  unfold new_courses.
  induction first as [|e rest IH]; cbn [app new_courses_loop].
  - cbn. now destruct (new_courses_loop second existing []).
  - destruct (py_iter existing) as [items|x]; [|reflexivity]. cbn [obind].
    destruct (any_id_equal (id e) items) as [[|]|x]; cbn [obind negb];
      [exact IH| |reflexivity].
    rewrite (new_courses_loop_acc (rest ++ second)), IH.
    rewrite (new_courses_loop_acc rest existing [e]).
    destruct (new_courses_loop rest existing []) as [l1|x]; [|reflexivity].
    cbn [obind].
    destruct (new_courses_loop second existing []) as [l2|x]; reflexivity.
Qed.

(* ------------------------------------------------------------------ *)
(** * Further properties: how [main] ends *)

(** X14. In every run in which the diff finds at least one new course,
    [main] ends with AttributeError (exit status 1) at the look-up of
    [loop.run]: the world is the one the scrape left, so no message is
    delivered, [courses.yml] is as before and the log has no line after
    those of the scrape. *)
Theorem new_courses_make_main_raise (env : Env) (w : World) (existing : pyval)
  (current : list Course) (c : Course) (cs : list Course) :
  fst (load_existing_courses env w) = Return existing ->
  fst (get_courses env w) = Return current ->
  new_courses current existing = Return (c :: cs) ->
  main env w
  = (Raise AttributeError, snd (get_courses env (log_line INFO "Running!" w)))
  /\ exit_status (fst (main env w)) = 1
  /\ channel (snd (main env w)) = channel w
  /\ courses_yml (snd (main env w)) = courses_yml w.
Proof.
  intros Hload Hget Hnew.
  assert (main env w
          = (Raise AttributeError,
             snd (get_courses env (log_line INFO "Running!" w)))) as Hmain.
  { rewrite main_unfold. cbv zeta.
    rewrite (load_existing_courses_result env _ w) by reflexivity.
    rewrite Hload, (get_courses_result env _ w), Hget, Hnew. reflexivity. }
  split; [exact Hmain|]. split; [now rewrite Hmain|].
  split; apply main_frame.
Qed.

Lemma new_courses_make_main_raise_witness :
  let w := Sample.world None in
  main Sample.site_two_pages w
  = (Raise AttributeError,
     snd (get_courses Sample.site_two_pages (log_line INFO "Running!" w)))
  /\ exit_status (fst (main Sample.site_two_pages w)) = 1
  /\ channel (snd (main Sample.site_two_pages w)) = channel w
  /\ courses_yml (snd (main Sample.site_two_pages w)) = courses_yml w.
Proof.
  apply (new_courses_make_main_raise Sample.site_two_pages (Sample.world None)
           (PList []) [Sample.A; Sample.B; Sample.C] Sample.A
           [Sample.B; Sample.C]).
  - reflexivity.
  - vm_compute. reflexivity.
  - vm_compute. reflexivity.
Defined.

(** X15. Every run of [main] only adds to the world: lines to the log,
    the first of them "Running!", and requests to those made; it delivers
    no message and leaves [courses.yml] as it was. *)
Theorem main_only_logs_and_requests (env : Env) (w : World) :
  exists lines urls,
    snd (main env w) = extend w ((INFO, "Running!") :: lines) urls.
Proof.
  rewrite main_unfold. cbv zeta.
  destruct (uniform_get_courses env) as [o [l [u H]]].
  rewrite H, !log_line_extend, extend_extend. cbn [fst snd app].
  destruct (fst (load_existing_courses env (extend w [(INFO, "Running!")] [])))
    as [existing|x].
  - destruct o as [current|x]; [|now exists l, u].
    destruct (new_courses current existing) as [[|c cs]|x];
      try (now exists l, u).
    exists (l ++ [(INFO, "No new courses found.")])%list, (u ++ [])%list.
    cbn [snd]. now rewrite extend_extend.
  - now exists [], [].
Qed.

Lemma pages_loop_exit (env : Env) (numbers : list Z) :
  forall (acc : list Course) (w w' : World) (code : Z),
    for_each numbers acc
      (fun courses page =>
         more <- get_course_page page None ;; ret (courses ++ more)%list)
      env w = (Raise (SystemExit code), w') ->
    code = 1
    /\ exists url msg urls,
         http_get env url = RequestFailed msg
         /\ w' = extend w [(ERROR, "Error fetching courses: " ++ msg)]
                   (urls ++ [url]).
Proof.
  induction numbers as [|N rest IH]; intros acc w w' code.
  - discriminate.
  - cbn [for_each]. unfold bind at 1. unfold bind at 1.
    rewrite get_course_page_fetch.
    destruct (http_get env (page_url N)) as [p|msg] eqn:Hget.
    + destruct (courses_of_page p) as [more|x] eqn:Hp.
      * unfold ret at 1. intros H.
        destruct (IH _ _ _ _ H) as [Hcode [url [msg [urls [Hurl Hw]]]]].
        split; [exact Hcode|].
        exists url, msg, (page_url N :: urls). split; [exact Hurl|].
        rewrite Hw, extend_extend. reflexivity.
      * intros H. injection H as -> _.
        now pose proof (parse_all_raises (div_hs_event p) _ Hp).
    + intros H. injection H as <- <-. split; [reflexivity|].
      exists (page_url N), msg, []. split; [exact Hget|reflexivity].
Qed.

Lemma get_courses_exit (env : Env) (w w' : World) (code : Z) :
  get_courses env w = (Raise (SystemExit code), w') ->
  code = 1
  /\ exists url msg urls,
       http_get env url = RequestFailed msg
       /\ w' = extend w [(ERROR, "Error fetching courses: " ++ msg)]
                 (urls ++ [url]).
Proof.
  rewrite get_courses_unfold.
  destruct (http_get env COURSE_URL) as [p|msg] eqn:Hget.
  - destruct (ul_pagination p) as [n|]; [|discriminate].
    destruct (courses_of_page p) as [courses|x] eqn:Hp.
    + destruct (Z.of_nat n - 2 <? 2); [discriminate|].
      intros H.
      destruct (pages_loop_exit _ _ _ _ _ _ H)
        as [Hcode [url [msg [urls [Hurl Hw]]]]].
      split; [exact Hcode|].
      exists url, msg, (COURSE_URL :: urls). split; [exact Hurl|].
      rewrite Hw, extend_extend. reflexivity.
    + intros H. injection H as -> _.
      now pose proof (parse_all_raises (div_hs_event p) _ Hp).
  - intros H. injection H as <- <-. split; [reflexivity|].
    exists COURSE_URL, msg, []. split; [exact Hget|reflexivity].
Qed.

Lemma any_id_equal_raises (e_id : string) (items : list pyval) (x : exn) :
  any_id_equal e_id items = Raise x -> x = KeyError \/ x = TypeError.
Proof.
  induction items as [|f rest IH]; cbn [any_id_equal]; [discriminate|].
  destruct (py_getitem f "id") as [v|y] eqn:Hf; cbn [obind].
  - destruct (str_eq e_id v); [discriminate|exact IH].
  - intros H. injection H as <-. now apply (py_getitem_raises f "id").
Qed.

Lemma new_courses_loop_raises (current : list Course) (existing : pyval) :
  forall acc x,
    new_courses_loop current existing acc = Raise x ->
    x = KeyError \/ x = TypeError.
Proof.
  induction current as [|e rest IH]; intros acc x; cbn [new_courses_loop].
  - discriminate.
  - destruct (py_iter existing) as [items|y] eqn:Hiter; cbn [obind].
    + destruct (any_id_equal (id e) items) as [[|]|y] eqn:Hany;
        cbn [obind negb]; try apply IH.
      intros H. injection H as <-. now apply (any_id_equal_raises (id e) items).
    + intros H. injection H as <-.
      destruct existing; try discriminate; cbn in Hiter;
        injection Hiter as <-; now right.
Qed.

(** X16. Whenever a run of [main] ends through [sys.exit], the code is
    1 and a request was refused: it is the last request made, and the
    log of the run is "Running!" followed by the ERROR line
    "Error fetching courses: " with the error of that request.  No run
    ends through [sys.exit] silently or with another code. *)
Theorem main_exits_only_on_a_logged_fetch_error (env : Env) (w : World)
  (code : Z) :
  fst (main env w) = Raise (SystemExit code) ->
  code = 1
  /\ exists url msg urls,
       http_get env url = RequestFailed msg
       /\ snd (main env w)
          = extend w
              [(INFO, "Running!");
               (ERROR, "Error fetching courses: " ++ msg)]
              (urls ++ [url]).
Proof.
  rewrite main_unfold. cbv zeta.
  rewrite load_existing_courses_unfold. cbn [fst].
  destruct (match courses_yml (log_line INFO "Running!" w) with
            | Some file => yaml_safe_load file
            | None => Return (PList [])
            end) as [existing|x] eqn:Hload.
  - destruct (get_courses env (log_line INFO "Running!" w))
      as [[current|x] w1] eqn:Hget; cbn [fst snd].
    + destruct (new_courses current existing) as [[|c cs]|x] eqn:Hnew;
        cbn [fst]; try discriminate.
      intros H. injection H as ->.
      destruct (new_courses_loop_raises _ _ _ _ Hnew); discriminate.
    + intros H. injection H as ->.
      destruct (get_courses_exit _ _ _ _ Hget)
        as [Hcode [url [msg [urls [Hurl Hw]]]]].
      split; [exact Hcode|].
      exists url, msg, urls. split; [exact Hurl|].
      now rewrite Hw, log_line_extend, extend_extend.
  - cbn [fst]. intros H. injection H as ->.
    destruct (courses_yml (log_line INFO "Running!" w)) as [[| | |]|];
      discriminate.
Qed.

Lemma main_exits_only_on_a_logged_fetch_error_witness :
  1 = 1
  /\ exists url msg urls,
       http_get Cases.site_page_2_down url = RequestFailed msg
       /\ snd (main Cases.site_page_2_down (Sample.world None))
          = extend (Sample.world None)
              [(INFO, "Running!");
               (ERROR, "Error fetching courses: " ++ msg)]
              (urls ++ [url]).
Proof.
  apply (main_exits_only_on_a_logged_fetch_error Cases.site_page_2_down
           (Sample.world None) 1).
  vm_compute. reflexivity.
Defined.

(* ------------------------------------------------------------------ *)
(** * Further properties: more edges of the scrape *)

(** X17. When the pages before page [k] (2 <= k <= n - 2) answer and
    parse and page [k] answers with a block that lacks one of its three
    texts, [get_courses] raises AttributeError: nothing is logged, the
    courses of the pages before are not returned and the pages after [k]
    are not requested. *)
Theorem later_page_incomplete_block_aborts (env : Env) (w : World) (p1 : Page)
  (n : nat) (pages : Z -> Page) (cs1 : list Course) (cs : Z -> list Course)
  (k : Z) (pk : Page) (e : CourseElement) :
  http_get env COURSE_URL = Response p1 ->
  ul_pagination p1 = Some n ->
  courses_of_page p1 = Return cs1 ->
  2 <= k <= Z.of_nat n - 2 ->
  (forall N, 2 <= N < k ->
             http_get env (COURSE_URL ++ "&event_page=" ++ PyStr.of_int N)
             = Response (pages N)
             /\ courses_of_page (pages N) = Return (cs N)) ->
  http_get env (COURSE_URL ++ "&event_page=" ++ PyStr.of_int k) = Response pk ->
  In e (div_hs_event pk) ->
  texts e = None ->
  get_courses env w
  = (Raise AttributeError,
     extend w []
       (COURSE_URL
        :: map (fun N => COURSE_URL ++ "&event_page=" ++ PyStr.of_int N)
             (range 2 (k + 1)))).
Proof.
  intros Hget Hpag Hp1 Hk Hpages Hpk Hin He.
  rewrite get_courses_unfold, Hget, Hpag, Hp1.
  assert ((Z.of_nat n - 2 <? 2) = false) as -> by (apply Z.ltb_ge; lia).
  rewrite (range_split 2 (Z.of_nat n - 2 + 1) k) by lia.
  rewrite (pages_loop_stops env pages cs k AttributeError []).
  - rewrite extend_extend, <- range_last by lia. reflexivity.
  - intros N HN. apply in_range in HN. now apply Hpages.
  - intros w'. rewrite get_course_page_fetch. unfold page_url.
    rewrite Hpk. unfold courses_of_page.
    now rewrite (parse_all_incomplete _ e Hin He).
Qed.

Lemma later_page_incomplete_block_aborts_witness :
  get_courses
    {| http_get := fun url =>
         if String.eqb url COURSE_URL then Response Sample.page_AB_of_2
         else Response Cases.page_broken;
       send_message := fun _ _ => None;
       client_log := fun _ _ => [] |}
    (Sample.world None)
  = (Raise AttributeError,
     extend (Sample.world None) []
       (COURSE_URL
        :: map (fun N => COURSE_URL ++ "&event_page=" ++ PyStr.of_int N)
             (range 2 (2 + 1)))).
Proof.
  apply (later_page_incomplete_block_aborts _ (Sample.world None)
           Sample.page_AB_of_2 4%nat (fun _ => Sample.page_C)
           [Sample.A; Sample.B] (fun _ => []) 2 Cases.page_broken
           Cases.no_date).
  - vm_compute. reflexivity.
  - reflexivity.
  - vm_compute. reflexivity.
  - lia.
  - intros N HN. lia.
  - vm_compute. reflexivity.
  - simpl. right. left. reflexivity.
  - reflexivity.
Defined.

Lemma lstrip_blank (s : string) :
  string_forallb PyStr.isspace s = true -> PyStr.lstrip s = "".
Proof.
  induction s as [|c r IH]; simpl; [reflexivity|].
  destruct (PyStr.isspace c); [exact IH|discriminate].
Qed.

Lemma strip_blank (s : string) :
  string_forallb PyStr.isspace s = true -> PyStr.strip s = "".
Proof. intros H. unfold PyStr.strip. now rewrite lstrip_blank. Qed.

(** X18. A block whose three elements are there but hold white space
    only (or nothing) is not rejected: [parse_course] returns a course
    with empty title, date and description and the digest of the empty
    string as id, the same for every such block. *)
Theorem blank_texts_are_accepted (e : CourseElement) (t d x : string) :
  texts e = Some (t, d, x) ->
  string_forallb PyStr.isspace t = true ->
  string_forallb PyStr.isspace d = true ->
  string_forallb PyStr.isspace x = true ->
  parse_course e
  = Return {| id := "d41d8cd98f00b204e9800998ecf8427e";
              title := ""; date := ""; description := "" |}.
Proof.
  intros He Ht Hd Hx. rewrite parse_course_texts, He.
  unfold course_of_texts. rewrite !strip_blank by assumption.
  vm_compute. reflexivity.
Qed.

Lemma blank_texts_are_accepted_witness :
  parse_course (Sample.element "  " PyStr.LF "")
  = Return {| id := "d41d8cd98f00b204e9800998ecf8427e";
              title := ""; date := ""; description := "" |}.
Proof.
  apply (blank_texts_are_accepted (Sample.element "  " PyStr.LF "")
           "  " PyStr.LF "").
  - reflexivity.
  - reflexivity.
  - reflexivity.
  - reflexivity.
Defined.
